(** * TextGen: the AI gateway and the generation services

    A shallow embedding of [services/geminiService.ts]: the gateway
    [callAI], which dispatches a logical request to the Gemini SDK or to
    an OpenAI-compatible HTTP endpoint, and the services built on it
    ([generateOutlines], [generateChapterDetails],
    [generateChapterContent], [refineContent], [validateConnection]).

    JavaScript strings are sequences of UTF-16 code units; they are
    modelled as [list N].  Network calls and [console.error] are recorded
    in a trace, exceptions are the left summand of the result. *)

From Stdlib Require Import List Arith NArith ZArith Bool Lia String Ascii.
From Stdlib Require Import DecimalString DecimalN DecimalPos.
Import ListNotations.
Open Scope N_scope.

(** ** JavaScript strings *)

Module JS.

Definition jsstring := list N.

(** An ASCII literal as a JavaScript string. *)
Definition lit (s : string) : jsstring :=
  map N_of_ascii (list_ascii_of_string s).
Arguments lit s%_string.

(** The double quote, U+0022. *)
Definition dquote : jsstring := [34].

(** [a === b] on strings. *)
Fixpoint streq (a b : jsstring) : bool :=
  match a, b with
  | [], [] => true
  | x :: a', y :: b' => (x =? y) && streq a' b'
  | _, _ => false
  end.

(** [s.startsWith(p)]. *)
Fixpoint startsWith (p s : jsstring) : bool :=
  match p, s with
  | [], _ => true
  | x :: p', y :: s' => (x =? y) && startsWith p' s'
  | _ :: _, [] => false
  end.

(** [s.includes(p)]: [p] occurs at some position of [s]. *)
Fixpoint includes (p s : jsstring) : bool :=
  startsWith p s ||
  match s with
  | [] => false
  | _ :: s' => includes p s'
  end.

(** [s.replace(/p/g, '')] for a literal, non-empty pattern [p]: the
    matches are found left to right and do not overlap.  [skip] counts the
    code units of the current match that are still to be dropped. *)
Fixpoint remove_from (p : jsstring) (skip : nat) (s : jsstring) : jsstring :=
  match s with
  | [] => []
  | c :: s' =>
      match skip with
      | S k => remove_from p k s'
      | O => if startsWith p s
             then remove_from p (List.length p - 1) s'
             else c :: remove_from p 0 s'
      end
  end.

Definition removeAll (p s : jsstring) : jsstring := remove_from p 0 s.

(** White space and line terminators, the set removed by [trim()] and
    matched by [\s]. *)
Definition isSpace (c : N) : bool :=
  existsb (N.eqb c)
    [9; 10; 11; 12; 13; 32; 160; 5760; 8232; 8233; 8239; 8287; 12288; 65279]
  || ((8192 <=? c) && (c <=? 8202)).

(** Line terminators, the code units that [.] does not match. *)
Definition isLineTerminator (c : N) : bool :=
  existsb (N.eqb c) [10; 13; 8232; 8233].

Fixpoint trimStart (s : jsstring) : jsstring :=
  match s with
  | [] => []
  | c :: s' => if isSpace c then trimStart s' else s
  end.

Definition trimEnd (s : jsstring) : jsstring := rev (trimStart (rev s)).

(** [s.trim()]. *)
Definition trim (s : jsstring) : jsstring := trimEnd (trimStart s).

(** [s.split('\n')]: never empty, [''.split('\n')] is [['']]. *)
Fixpoint splitLines (s : jsstring) : list jsstring :=
  match s with
  | [] => [[]]
  | c :: s' =>
      if c =? 10 then [] :: splitLines s'
      else match splitLines s' with
           | l :: ls => (c :: l) :: ls
           | [] => [[c]]
           end
  end.

(** [xs.join(sep)]. *)
Fixpoint join (sep : jsstring) (xs : list jsstring) : jsstring :=
  match xs with
  | [] => []
  | [x] => x
  | x :: rest => x ++ sep ++ join sep rest
  end.

(** [s.replace(/\/$/, '')]: without the [m] flag [$] is the end of the
    input, so only a slash in last position is removed. *)
Fixpoint removeTrailingSlash (s : jsstring) : jsstring :=
  match s with
  | [] => []
  | c :: s' =>
      match s' with
      | [] => if c =? 47 then [] else [c]
      | _ :: _ => c :: removeTrailingSlash s'
      end
  end.

(** [l.replace(re, '')] for the pattern [re] of the fallback: start of
    input, a dash or a bullet (U+2022), then white space, as much as
    there is.  A leading dash or bullet and the white space after it are
    removed, any other string is returned as it is. *)
Definition removeLeadingMarker (l : jsstring) : jsstring :=
  match l with
  | c :: rest => if (c =? 45) || (c =? 8226) then trimStart rest else l
  | [] => []
  end.

(** [s] with the prefix [p] removed, when [s] starts with [p]. *)
Fixpoint stripPrefix (p s : jsstring) : option jsstring :=
  match p, s with
  | [], _ => Some s
  | x :: p', y :: s' => if x =? y then stripPrefix p' s' else None
  | _ :: _, [] => None
  end.

(** The two groups of [(.+);base64,(.+)$] matched at the start of [r].
    The first [.+] is greedy: the longest first group is tried first (the
    recursive call), and the matcher backtracks to a first group that ends
    at [c] only when no longer one leads to a match.  [.] matches anything
    but a line terminator, and the second group has to reach the end of
    the input. *)
Fixpoint matchGroups (r : jsstring) : option (jsstring * jsstring) :=
  match r with
  | [] => None
  | c :: r' =>
      if isLineTerminator c then None
      else
        match matchGroups r' with
        | Some (g1, g2) => Some (c :: g1, g2)
        | None =>
            match stripPrefix (lit ";base64,") r' with
            | Some d =>
                match d with
                | [] => None
                | _ :: _ =>
                    if forallb (fun x => negb (isLineTerminator x)) d
                    then Some ([c], d) else None
                end
            | None => None
            end
        end
  end.

(** [s.match(/^data:(.+);base64,(.+)$/)]: the capture groups 1 and 2, or
    [None] for a [null] result. *)
Definition matchDataUri (s : jsstring) : option (jsstring * jsstring) :=
  match stripPrefix (lit "data:") s with
  | Some r => matchGroups r
  | None => None
  end.

(** The decimal rendering of a non-negative integer in a template. *)
Definition showN (n : N) : jsstring :=
  lit (NilZero.string_of_uint (N.to_uint n)).

End JS.
Export JS.

(** ** JSON values *)

Module JSON.

(** The values [JSON.parse] and [res.json()] produce.  A number is kept
    as its literal: the services never compute with one.  An object keeps
    its members in source order; of two members with one key the later
    is the value of the property. *)
#[warnings="-register-all"] Inductive JValue : Type :=
| JNull
| JBool (b : bool)
| JNum (literal : jsstring)
| JStr (s : jsstring)
| JArr (items : list JValue)
| JObj (members : list (jsstring * JValue)).

(** The own property [key] of an object with these members, [None] when
    there is none ([undefined]). *)
Definition lookup (key : jsstring) (members : list (jsstring * JValue))
  : option JValue :=
  fold_left (fun found kv => if streq key (fst kv) then Some (snd kv) else found)
            members None.

Definition isDigit (c : N) : bool := (48 <=? c) && (c <=? 57).

(** *** A reference parser, after the JSON grammar *)

Definition isJsonSpace (c : N) : bool :=
  (c =? 32) || (c =? 9) || (c =? 10) || (c =? 13).

Fixpoint skipWs (s : jsstring) : jsstring :=
  match s with
  | c :: s' => if isJsonSpace c then skipWs s' else s
  | [] => []
  end.

Definition hexDigit (c : N) : option N :=
  if isDigit c then Some (c - 48)
  else if (97 <=? c) && (c <=? 102) then Some (c - 87)
  else if (65 <=? c) && (c <=? 70) then Some (c - 55)
  else None.

Definition hex4 (a b c d : N) : option N :=
  match hexDigit a, hexDigit b, hexDigit c, hexDigit d with
  | Some x, Some y, Some z, Some t => Some (((x * 16 + y) * 16 + z) * 16 + t)
  | _, _, _, _ => None
  end.

(** The code unit denoted by the escape [\e]. *)
Definition unescape (e : N) : option N :=
  if (e =? 34) || (e =? 92) || (e =? 47) then Some e
  else if e =? 98 then Some 8
  else if e =? 102 then Some 12
  else if e =? 110 then Some 10
  else if e =? 114 then Some 13
  else if e =? 116 then Some 9
  else None.

Definition consTo (c : N) (r : option (jsstring * jsstring))
  : option (jsstring * jsstring) :=
  match r with
  | Some (str, rest) => Some (c :: str, rest)
  | None => None
  end.

(** The characters of a string literal after its opening quote, and the
    input after its closing quote. *)
Fixpoint parseChars (s : jsstring) : option (jsstring * jsstring) :=
  match s with
  | [] => None
  | c :: s' =>
      if c =? 34 then Some ([], s')
      else if c =? 92 then
        match s' with
        | [] => None
        | e :: s'' =>
            if e =? 117 then
              match s'' with
              | h1 :: h2 :: h3 :: h4 :: s3 =>
                  match hex4 h1 h2 h3 h4 with
                  | Some u => consTo u (parseChars s3)
                  | None => None
                  end
              | _ => None
              end
            else
              match unescape e with
              | Some u => consTo u (parseChars s'')
              | None => None
              end
        end
      else if c <? 32 then None
      else consTo c (parseChars s')
  end.

(** The longest run of digits at the start of [s], and what follows. *)
Fixpoint digits (s : jsstring) : jsstring * jsstring :=
  match s with
  | c :: s' =>
      if isDigit c then let (ds, rest) := digits s' in (c :: ds, rest)
      else ([], s)
  | [] => ([], [])
  end.

(** The integer the digits [ds] denote after the digits of [acc]. *)
Fixpoint digitsValue (acc : Z) (ds : jsstring) : Z :=
  match ds with
  | [] => acc
  | c :: rest => digitsValue (10 * acc + Z.of_N (c - 48))%Z rest
  end.

(** The exponent part of a number literal, from its [e] on; 0 when there
    is none. *)
Definition exponentValue (s : jsstring) : Z :=
  match s with
  | c :: r =>
      if (c =? 101) || (c =? 69) then
        match r with
        | x :: r0 =>
            if x =? 45 then (- digitsValue 0 (fst (digits r0)))%Z
            else if x =? 43 then digitsValue 0 (fst (digits r0))
            else digitsValue 0 (fst (digits r))
        | [] => 0%Z
        end
      else 0%Z
  | [] => 0%Z
  end.

(** Whether the number a literal denotes is zero as a JavaScript number,
    a double.  The literal is [m * 10^e] up to its sign, [m] the integer
    of its digits before the exponent and [e] its exponent less the number
    of its fraction digits.  Rounded to the nearest double, ties to even,
    it is zero exactly when [m] is zero or [m * 10^e] is at most
    [2^(-1075)], half of the least positive double. *)
Definition numberIsZero (literal : jsstring) : bool :=
  let unsigned :=
    match literal with
    | c :: r => if c =? 45 then r else literal
    | [] => []
    end in
  let (int, s1) := digits unsigned in
  let (frac, s2) :=
    match s1 with
    | c :: r => if c =? 46 then digits r else ([], s1)
    | [] => ([], s1)
    end in
  let m := digitsValue 0 (int ++ frac) in
  let e := (exponentValue s2 - Z.of_nat (List.length frac))%Z in
  (m =? 0)%Z || ((e <? 0)%Z && (m * 2 ^ 1075 <=? 10 ^ (- e))%Z).

(** JavaScript truthiness of a JSON value. *)
Definition truthy (v : JValue) : bool :=
  match v with
  | JNull => false
  | JBool b => b
  | JNum literal => negb (numberIsZero literal)
  | JStr s => match s with [] => false | _ :: _ => true end
  | JArr _ => true
  | JObj _ => true
  end.

(** A number literal at the start of [s]: an optional minus sign; an
    integer part, [0] alone or digits that do not start with [0]; an
    optional fraction, a dot and one digit or more; an optional exponent,
    [e] or [E], an optional sign and one digit or more. *)
Definition parseNumber (s : jsstring) : option (jsstring * jsstring) :=
  let (sign, s1) :=
    match s with
    | c :: r => if c =? 45 then ([c], r) else ([], s)
    | [] => ([], s)
    end in
  let (int, s2) := digits s1 in
  match int with
  | [] => None
  | d :: more =>
      if (d =? 48) && negb (match more with [] => true | _ => false end)
      then None
      else
        let frac :=
          match s2 with
          | c :: r =>
              if c =? 46 then
                let (fs, r') := digits r in
                match fs with
                | [] => None
                | _ :: _ => Some (c :: fs, r')
                end
              else Some ([], s2)
          | [] => Some ([], s2)
          end in
        match frac with
        | None => None
        | Some (fr, s3) =>
            let noExp := Some (sign ++ int ++ fr, s3) in
            match s3 with
            | c :: r =>
                if (c =? 101) || (c =? 69) then
                  let (sg, r1) :=
                    match r with
                    | x :: r0 =>
                        if (x =? 43) || (x =? 45) then ([x], r0) else ([], r)
                    | [] => ([], r)
                    end in
                  let (es, r2) := digits r1 in
                  match es with
                  | [] => None
                  | _ :: _ => Some (sign ++ int ++ fr ++ c :: sg ++ es, r2)
                  end
                else noExp
            | [] => noExp
            end
        end
  end.

Definition keyword (word : jsstring) (v : JValue) (s : jsstring)
  : option (JValue * jsstring) :=
  match stripPrefix word s with
  | Some rest => Some (v, rest)
  | None => None
  end.

(** One value at the start of [s] (after white space), the elements of an
    array after its opening bracket, the members of an object after its
    opening brace.  [fuel] bounds the number of nested calls. *)
Fixpoint parseValue (fuel : nat) (s : jsstring) : option (JValue * jsstring) :=
  match fuel with
  | O => None
  | S n =>
      match skipWs s with
      | [] => None
      | c :: s' =>
          if c =? 91 then
            match skipWs s' with
            | x :: after =>
                if x =? 93 then Some (JArr [], after)
                else match parseElements n s' with
                     | Some (items, rest) => Some (JArr items, rest)
                     | None => None
                     end
            | [] => None
            end
          else if c =? 123 then
            match skipWs s' with
            | x :: after =>
                if x =? 125 then Some (JObj [], after)
                else match parseMembers n s' with
                     | Some (ms, rest) => Some (JObj ms, rest)
                     | None => None
                     end
            | [] => None
            end
          else if c =? 34 then
            match parseChars s' with
            | Some (str, rest) => Some (JStr str, rest)
            | None => None
            end
          else if c =? 116 then keyword (lit "true") (JBool true) (c :: s')
          else if c =? 102 then keyword (lit "false") (JBool false) (c :: s')
          else if c =? 110 then keyword (lit "null") JNull (c :: s')
          else
            match parseNumber (c :: s') with
            | Some (literal, rest) => Some (JNum literal, rest)
            | None => None
            end
      end
  end
with parseElements (fuel : nat) (s : jsstring)
  : option (list JValue * jsstring) :=
  match fuel with
  | O => None
  | S n =>
      match parseValue n s with
      | None => None
      | Some (v, r) =>
          match skipWs r with
          | c :: r' =>
              if c =? 44 then
                match parseElements n r' with
                | Some (items, rest) => Some (v :: items, rest)
                | None => None
                end
              else if c =? 93 then Some ([v], r')
              else None
          | [] => None
          end
      end
  end
with parseMembers (fuel : nat) (s : jsstring)
  : option (list (jsstring * JValue) * jsstring) :=
  match fuel with
  | O => None
  | S n =>
      match skipWs s with
      | q :: s1 =>
          if q =? 34 then
            match parseChars s1 with
            | None => None
            | Some (key, s2) =>
                match skipWs s2 with
                | colon :: s3 =>
                    if colon =? 58 then
                      match parseValue n s3 with
                      | None => None
                      | Some (v, r) =>
                          match skipWs r with
                          | c :: r' =>
                              if c =? 44 then
                                match parseMembers n r' with
                                | Some (ms, rest) => Some ((key, v) :: ms, rest)
                                | None => None
                                end
                              else if c =? 125 then Some ([(key, v)], r')
                              else None
                          | [] => None
                          end
                      end
                    else None
                | [] => None
                end
            end
          else None
      | [] => None
      end
  end.

(** A thrown [Error] object; only its [message] is ever read. *)
Record JSError : Type := mkError { message : jsstring }.

(** [JSON.parse(s)]: the value, or a [SyntaxError]. *)
Definition parse (s : jsstring) : JSError + JValue :=
  match parseValue (2 * List.length s + 2) s with
  | Some (v, rest) =>
      match skipWs rest with
      | [] => inr v
      | _ :: _ => inl (mkError (lit "SyntaxError"))
      end
  | None => inl (mkError (lit "SyntaxError"))
  end.

End JSON.
Export JSON.

(** ** Property access on JSON values *)

(** [undefined], next to the JSON values. *)
Definition JSValue : Type := option JValue.
Definition undefined : JSValue := None.

(** [v.key] for a property name that is no built-in of strings, arrays,
    numbers or booleans (the service reads [choices], [message],
    [content] and [details]): the own property of an object, [undefined]
    on other values, a [TypeError] on [null]. *)
Definition getProp (v : JValue) (key : jsstring) : JSError + JSValue :=
  match v with
  | JNull => inl (mkError (lit "TypeError"))
  | JObj members => inr (lookup key members)
  | _ => inr undefined
  end.

(** [x?.key]: [undefined] when [x] is [undefined] or [null]. *)
Definition optProp (x : JSValue) (key : jsstring) : JSValue :=
  match x with
  | None | Some JNull => undefined
  | Some (JObj members) => lookup key members
  | Some _ => undefined
  end.

(** [x?.[0]]: the first element of an array, the first code unit of a
    string, the property [0] of an object. *)
Definition optIndex0 (x : JSValue) : JSValue :=
  match x with
  | None | Some JNull => undefined
  | Some (JArr items) => match items with v :: _ => Some v | [] => undefined end
  | Some (JStr s) => match s with c :: _ => Some (JStr [c]) | [] => undefined end
  | Some (JObj members) => lookup (lit "0") members
  | Some _ => undefined
  end.

(** [x || ''], the empty string for a falsy [x]. *)
Definition orEmptyString (x : JSValue) : JValue :=
  match x with
  | Some v => if truthy v then v else JStr []
  | None => JStr []
  end.

(** Truthiness of an optional string: [undefined] and the empty string
    are falsy. *)
Definition truthyStr (x : option jsstring) : bool :=
  match x with
  | Some (_ :: _) => true
  | _ => false
  end.

(** ** The data of [types.ts] and of the two wire formats *)

(** [AIConfig]; [provider] is the string the code compares. *)
Record AIConfig : Type := mkAIConfig {
  provider : jsstring;
  modelName : jsstring;
  apiKey : option jsstring;
  baseUrl : option jsstring
}.

Record InlineData : Type := mkInlineData {
  mimeType : jsstring;
  data : jsstring
}.

(** One part of a multimodal prompt: an object that may carry a [text]
    and may carry an [inlineData]. *)
Record Part : Type := mkPart {
  text : option jsstring;
  inlineData : option InlineData
}.

Definition textPart (t : jsstring) : Part := mkPart (Some t) None.
Definition imagePart (m d : jsstring) : Part :=
  mkPart None (Some (mkInlineData m d)).

(** [prompt: string | any[]]. *)
Inductive Prompt : Type :=
| PromptString (s : jsstring)
| PromptParts (parts : list Part).

(** The response schemas handed to the SDK. *)
#[warnings="-register-all"] Inductive Schema : Type :=
| SchemaString
| SchemaArray (items : Schema)
| SchemaObject (properties : list (jsstring * Schema))
               (required : option (list jsstring)).

Inductive Contents : Type :=
| ContentsString (s : jsstring)
| ContentsParts (parts : list Part).

Record GenerateConfig : Type := mkGenerateConfig {
  gcSystemInstruction : option jsstring;
  gcResponseMimeType : jsstring;
  gcResponseSchema : option Schema
}.

(** The argument of [systemAi.models.generateContent]. *)
Record GenerateOptions : Type := mkGenerateOptions {
  goModel : jsstring;
  goContents : Contents;
  goConfig : GenerateConfig
}.

(** One entry of an OpenAI content array. *)
Inductive ContentEntry : Type :=
| EntryText (text : jsstring)
| EntryImageUrl (url : jsstring).

Inductive MessageContent : Type :=
| ContentString (s : jsstring)
| ContentArray (entries : list ContentEntry).

Record Message : Type := mkMessage {
  role : jsstring;
  content : MessageContent
}.

(** The object given to [JSON.stringify] as the request body;
    [response_format] holds the [type] of the format when present. *)
Record ChatBody : Type := mkChatBody {
  model : jsstring;
  messages : list Message;
  temperature : jsstring;
  response_format : option jsstring
}.

Record RequestInit : Type := mkRequestInit {
  method : jsstring;
  headers : list (jsstring * jsstring);
  body : ChatBody
}.

(** What [fetch] resolves to: [res.ok], [res.status], and the results of
    [res.text()] and [res.json()]. *)
Record Response : Type := mkResponse {
  ok : bool;
  status : N;
  resText : JSError + jsstring;
  resJson : JSError + JValue
}.

(** ** Effects *)

Inductive LogArg : Type :=
| LogError (e : JSError)
| LogValue (v : JValue).

(** What the service does to the outside, in order. *)
Inductive Event : Type :=
| SdkGenerateContent (options : GenerateOptions)
| HttpFetch (url : jsstring) (init : RequestInit)
| ConsoleError (label : jsstring) (arg : LogArg).

Definition isNetworkCall (ev : Event) : bool :=
  match ev with
  | SdkGenerateContent _ | HttpFetch _ _ => true
  | ConsoleError _ _ => false
  end.

Definition networkCalls (trace : list Event) : list Event :=
  filter isNetworkCall trace.

(** How the outside answers: the SDK returns a response whose [text] may
    be [undefined], [fetch] resolves to a response; each may throw. *)
Record World : Type := mkWorld {
  sdkAnswer : GenerateOptions -> JSError + option jsstring;
  fetchAnswer : jsstring -> RequestInit -> JSError + Response
}.

(** A computation: the events it performed, and an exception or a value. *)
Definition M (A : Type) : Type := (list Event * (JSError + A))%type.

Definition ret {A} (a : A) : M A := ([], inr a).
Definition throw {A} (e : JSError) : M A := ([], inl e).
Definition lift {A} (r : JSError + A) : M A := ([], r).
Definition emit (ev : Event) : M unit := ([ev], inr tt).

Definition bind {A B} (m : M A) (f : A -> M B) : M B :=
  match m with
  | (t, inl e) => (t, inl e)
  | (t, inr a) => let (t', r) := f a in (t ++ t', r)
  end.

(** [try { body } catch (e) { handler }]. *)
Definition tryCatch {A} (body : M A) (handler : JSError -> M A) : M A :=
  match body with
  | (t, inl e) => let (t', r) := handler e in (t ++ t', r)
  | (t, inr a) => (t, inr a)
  end.

Declare Scope js_scope.
Delimit Scope js_scope with js.
Notation "x <- m ;; k" := (bind m (fun x => k))
  (at level 61, m at next level, right associativity) : js_scope.
Notation "m ;;; k" := (bind m (fun _ => k))
  (at level 61, right associativity) : js_scope.
Open Scope js_scope.

Definition trace {A} (m : M A) : list Event := fst m.
Definition outcome {A} (m : M A) : JSError + A := snd m.

(** ** The service *)

Module GeminiService.

Definition nl : jsstring := [10].

Definition gemini : jsstring := lit "gemini".
Definition openai : jsstring := lit "openai".
Definition applicationJson : jsstring := lit "application/json".
Definition textPlain : jsstring := lit "text/plain".
Definition chatCompletionsPath : jsstring := lit "/chat/completions".

(** The fence markers removed from a response, three backquotes with and
    without the [json] tag. *)
Definition fence : jsstring := [96; 96; 96].
Definition fenceJson : jsstring := fence ++ lit "json".

(** [text.replace(/```json/g, '').replace(/```/g, '').trim()]. *)
Definition stripCodeFence (text : jsstring) : jsstring :=
  trim (removeAll fence (removeAll fenceJson text)).

(** The callback of [prompt.map]: [None] is its [null]. *)
Definition toOpenAIEntry (part : Part) : option ContentEntry :=
  match text part with
  | Some ((_ :: _) as t) => Some (EntryText t)
  | _ =>
      match inlineData part with
      | Some d =>
          Some (EntryImageUrl
                  (lit "data:" ++ mimeType d ++ lit ";base64," ++ data d))
      | None => None
      end
  end.

(** [.filter(Boolean)] on the mapped array. *)
Fixpoint filterBoolean {A} (xs : list (option A)) : list A :=
  match xs with
  | [] => []
  | Some x :: rest => x :: filterBoolean rest
  | None :: rest => filterBoolean rest
  end.

Definition toOpenAIContent (parts : list Part) : list ContentEntry :=
  filterBoolean (map toOpenAIEntry parts).

(** The conditional of the outline template. *)
Definition styleRequirement (customStyle : jsstring) : jsstring :=
  match customStyle with
  | _ :: _ =>
      lit "User's specific style requirement: " ++ dquote ++ customStyle
      ++ dquote ++ lit "."
  | [] => []
  end.

(** The prompt of [generateOutlines]. *)
Definition outlinesPrompt (topic customStyle : jsstring) : jsstring :=
  nl
  ++ lit "    You are a professional document architect. " ++ nl
  ++ lit "    The user wants to write a document about: " ++ dquote ++ topic ++ dquote ++ lit "." ++ nl
  ++ lit "    " ++ styleRequirement customStyle ++ nl
  ++ lit "    " ++ nl
  ++ lit "    Please generate 3 distinct outlines." ++ nl
  ++ lit "    If the user provided a specific style, ensure at least 2 outlines align closely with that style, but offer 1 variation." ++ nl
  ++ lit "    If no style was provided, offer diverse tones (e.g., Academic, Professional, Creative)." ++ nl
  ++ nl
  ++ lit "    For each outline, provide:" ++ nl
  ++ lit "    1. style: A short name for the tone/style." ++ nl
  ++ lit "    2. description: A brief explanation of the approach." ++ nl
  ++ lit "    3. chapters: A list of chapter titles (5-8 chapters)." ++ nl
  ++ lit "  ".

(** The prompt of [generateChapterDetails]. *)
Definition detailsPrompt (topic chapterTitle : jsstring)
    (context : list jsstring) : jsstring :=
  nl
  ++ lit "    Context: A document about " ++ dquote ++ topic ++ dquote ++ lit "." ++ nl
  ++ lit "    Outline context: " ++ join (lit ", ") context ++ lit "." ++ nl
  ++ lit "    " ++ nl
  ++ lit "    Task: Create a detailed content plan (bullet points) for the chapter: " ++ dquote ++ chapterTitle ++ dquote ++ lit "." ++ nl
  ++ lit "    Focus on what specific sub-topics, arguments, or data points should be covered." ++ nl
  ++ lit "    Return a JSON object with a single key " ++ dquote ++ lit "details" ++ dquote ++ lit " containing an array of 4-6 strings." ++ nl
  ++ lit "  ".

(** The prompt of [generateChapterContent] before a chart is considered. *)
Definition contentPrompt (topic chapterTitle : jsstring)
    (points : list jsstring) (tone : jsstring) : jsstring :=
  nl
  ++ lit "    You are writing a section of a document." ++ nl
  ++ lit "    Document Topic: " ++ dquote ++ topic ++ dquote ++ nl
  ++ lit "    Tone/Style: " ++ tone ++ nl
  ++ lit "    " ++ nl
  ++ lit "    Chapter Title: " ++ dquote ++ chapterTitle ++ dquote ++ nl
  ++ lit "    Key Points to Cover:" ++ nl
  ++ lit "    " ++ join nl (map (fun p => lit "- " ++ p) points) ++ nl
  ++ lit "    " ++ nl
  ++ lit "    Write the full content for this chapter in Markdown format. " ++ nl
  ++ lit "    Do not include the chapter title in the output." ++ nl
  ++ lit "    Focus on high-quality, coherent paragraphs." ++ nl
  ++ lit "  ".

(** The text appended to the prompt when a chart image is given. *)
Definition chartInstruction : jsstring :=
  nl
  ++ lit "    " ++ nl
  ++ lit "[IMPORTANT] A chart/image has been provided for this section. " ++ nl
  ++ lit "    Analyze the visual data in the image provided and incorporate specific insights, trends, or numbers from the chart into your writing." ++ nl
  ++ lit "    Ensure the analysis flows naturally with the key points provided." ++ nl
  ++ lit "    ".


Definition outlinesSchema : Schema :=
  SchemaObject
    [(lit "outlines",
      SchemaArray
        (SchemaObject
           [(lit "style", SchemaString);
            (lit "description", SchemaString);
            (lit "chapters", SchemaArray SchemaString)]
           (Some [lit "style"; lit "description"; lit "chapters"])))]
    None.

Definition detailsSchema : Schema :=
  SchemaObject [(lit "details", SchemaArray SchemaString)] None.

(** The filter of the bullet fallback. *)
Definition isBulletLine (line : jsstring) : bool :=
  startsWith [45] (trim line) || startsWith [8226] (trim line).

Section Service.

(** [JSON.parse] of the platform. *)
Variable JSON_parse : jsstring -> JSError + JValue.
(** The outside world the calls go to. *)
Variable w : World.

Definition sdkGenerateContent (options : GenerateOptions)
  : M (option jsstring) :=
  ([SdkGenerateContent options], sdkAnswer w options).

Definition fetch (url : jsstring) (init : RequestInit) : M Response :=
  ([HttpFetch url init], fetchAnswer w url init).

Definition consoleError (label : jsstring) (arg : LogArg) : M unit :=
  emit (ConsoleError label arg).

(** [callAI(prompt, config, systemInstruction?, responseMimeType,
    responseSchema?)]; an omitted [responseMimeType] is [text/plain]. *)
Definition callAI (prompt : Prompt) (config : AIConfig)
    (systemInstruction : option jsstring)
    (responseMimeTypeArg : option jsstring)
    (responseSchema : option Schema) : M JValue :=
  let responseMimeType :=
    match responseMimeTypeArg with Some m => m | None => textPlain end in
  if streq (provider config) gemini then
    let options :=
      mkGenerateOptions
        (modelName config)
        (match prompt with
         | PromptString s => ContentsString s
         | PromptParts parts => ContentsParts parts
         end)
        (mkGenerateConfig systemInstruction responseMimeType responseSchema) in
    response <- sdkGenerateContent options ;;
    ret (JStr (match response with Some t => t | None => [] end))
  else if streq (provider config) openai then
    match apiKey config, baseUrl config with
    | Some ((_ :: _) as key), Some ((_ :: _) as base) =>
        let url :=
          if negb (includes chatCompletionsPath base)
          then removeTrailingSlash base ++ chatCompletionsPath
          else base in
        let system :=
          match systemInstruction with
          | Some ((_ :: _) as instr) =>
              [mkMessage (lit "system") (ContentString instr)]
          | _ => []
          end in
        let userContent :=
          match prompt with
          | PromptParts parts => ContentArray (toOpenAIContent parts)
          | PromptString s =>
              ContentString
                (if streq responseMimeType applicationJson
                 then s ++ nl ++ nl
                      ++ lit "IMPORTANT: Respond with valid JSON only. Do not use Markdown code blocks."
                 else s)
          end in
        let body :=
          mkChatBody
            (modelName config)
            (system ++ [mkMessage (lit "user") userContent])
            (lit "0.7")
            (if streq responseMimeType applicationJson
             then Some (lit "json_object") else None) in
        tryCatch
          (res <- fetch url
                    (mkRequestInit
                       (lit "POST")
                       [(lit "Content-Type", lit "application/json");
                        (lit "Authorization", lit "Bearer " ++ key)]
                       body) ;;
           if negb (ok res) then
             errText <- lift (resText res) ;;
             throw (mkError (lit "API Error (" ++ showN (status res)
                             ++ lit "): " ++ errText))
           else
             data <- lift (resJson res) ;;
             choices <- lift (getProp data (lit "choices")) ;;
             ret (orEmptyString
                    (optProp (optProp (optIndex0 choices) (lit "message"))
                             (lit "content"))))
          (fun error =>
             consoleError (lit "External API Call Failed") (LogError error) ;;;
             throw (mkError (lit "External AI Error: " ++ message error)))
    | _, _ =>
        throw (mkError (lit "Missing API Key or Base URL for custom provider"))
    end
  else throw (mkError (lit "Unknown Provider")).

(** [validateConnection(config)]. *)
Definition validateConnection (config : AIConfig) : M bool :=
  tryCatch
    (callAI (PromptString (lit "Hi")) config None None None ;;; ret true)
    (fun error =>
       consoleError (lit "Connection Validation Failed") (LogError error) ;;;
       throw error).

(** A string method called on the value [callAI] resolved to: a
    [TypeError] unless the value is a string. *)
Definition asString (v : JValue) : M jsstring :=
  match v with
  | JStr s => ret s
  | _ => throw (mkError (lit "TypeError"))
  end.

(** The schema argument of the services: only for the SDK. *)
Definition schemaFor (config : AIConfig) (schema : Schema) : option Schema :=
  if streq (provider config) gemini then Some schema else None.

(** [generateOutlines(topic, customStyle, config)]. *)
Definition generateOutlines (topic customStyle : jsstring) (config : AIConfig)
  : M JValue :=
  match topic with
  | [] => throw (mkError (lit "Topic is required"))
  | _ :: _ =>
      text <- callAI (PromptString (outlinesPrompt topic customStyle)) config
                None (Some applicationJson) (schemaFor config outlinesSchema) ;;
      tryCatch
        (s <- asString text ;;
         lift (JSON_parse (stripCodeFence s)))
        (fun _ =>
           consoleError (lit "Failed to parse JSON") (LogValue text) ;;;
           throw (mkError (lit "AI response was not valid JSON. Please try again.")))
  end.

(** [generateChapterDetails(topic, chapterTitle, context, config)]: what
    it resolves to is [data.details], whatever that is, or the array of
    strings of the fallback. *)
Definition generateChapterDetails (topic chapterTitle : jsstring)
    (context : list jsstring) (config : AIConfig) : M JSValue :=
  text <- callAI (PromptString (detailsPrompt topic chapterTitle context))
            config None (Some applicationJson)
            (schemaFor config detailsSchema) ;;
  tryCatch
    (s <- asString text ;;
     data <- lift (JSON_parse (stripCodeFence s)) ;;
     lift (getProp data (lit "details")))
    (fun _ =>
       s <- asString text ;;
       ret (Some (JArr (map JStr
                          (map removeLeadingMarker
                               (filter isBulletLine (splitLines s))))))).

(** The prompt text of [generateChapterContent] once the chart has been
    looked at. *)
Definition contentPromptText (topic chapterTitle : jsstring)
    (points : list jsstring) (tone : jsstring)
    (chartImageBase64 : option jsstring) : jsstring :=
  contentPrompt topic chapterTitle points tone
  ++ (if truthyStr chartImageBase64 then chartInstruction else []).

(** [generateChapterContent(topic, chapterTitle, points, tone, config,
    chartImageBase64?)].  A match of the pattern always has three
    entries, the whole match and the two groups. *)
Definition generateChapterContent (topic chapterTitle : jsstring)
    (points : list jsstring) (tone : jsstring) (config : AIConfig)
    (chartImageBase64 : option jsstring) : M JValue :=
  let promptText :=
    contentPromptText topic chapterTitle points tone chartImageBase64 in
  let matches :=
    match chartImageBase64 with
    | Some ((_ :: _) as image) => matchDataUri image
    | _ => None
    end in
  match matches with
  | Some (mimeType, data) =>
      callAI (PromptParts [imagePart mimeType data; textPart promptText])
             config None None None
  | None => callAI (PromptString promptText) config None None None
  end.


End Service.

End GeminiService.
Export GeminiService.

(** ** What the specification asks for *)

Module Spec.

(** A part as the specification has it: a text alone, or an image alone. *)
Definition isTextPart (p : Part) : Prop := exists t, p = textPart t.
Definition isImagePart (p : Part) : Prop := exists m d, p = imagePart m d.
Definition wellShaped (p : Part) : Prop := isTextPart p \/ isImagePart p.

(** The parts the gateway is given.  [callAI] is not exported, and the
    one caller that passes parts, [generateChapterContent], passes a
    text that is not empty and an image whose mime type and payload are
    the two groups of a match of the data-URI pattern. *)
Definition receivable (p : Part) : Prop :=
  (exists t, t <> [] /\ p = textPart t)
  \/ (exists image m d, matchDataUri image = Some (m, d) /\ p = imagePart m d).

(** What stands between the mime type and the payload of a data URI. *)
Definition separator : jsstring := lit ";base64,".

(** [data:<mimeType>;base64,<payload>]. *)
Definition dataUri (m d : jsstring) : jsstring :=
  lit "data:" ++ m ++ separator ++ d.

(** The entry the specification gives for a well-shaped part. *)
Definition specEntry (p : Part) : ContentEntry :=
  match inlineData p with
  | Some img => EntryImageUrl (dataUri (mimeType img) (data img))
  | None => EntryText (match text p with Some t => t | None => [] end)
  end.

(** The content of the user messages of the requests sent by [fetch]. *)
Definition sentUserContent (t : list Event) : list MessageContent :=
  flat_map
    (fun ev =>
       match ev with
       | HttpFetch _ init =>
           map content
               (filter (fun m => streq (role m) (lit "user"))
                       (messages (body init)))
       | _ => []
       end)
    t.

Definition noLineTerminator (s : jsstring) : bool :=
  forallb (fun c => negb (isLineTerminator c)) s.

(** A response in a markdown [json] fence. *)
Definition fenceWrap (j : jsstring) : jsstring :=
  fenceJson ++ nl ++ j ++ nl ++ fence.

Definition isNonEmptyString (x : option JValue) : bool :=
  match x with
  | Some (JStr (_ :: _)) => true
  | _ => false
  end.

Definition isString (v : JValue) : bool :=
  match v with JStr _ => true | _ => false end.

(** One outline record: a non-empty [style], a non-empty [description]
    and five to eight chapter titles. *)
Definition outlineOk (o : JValue) : bool :=
  match o with
  | JObj ms =>
      isNonEmptyString (lookup (lit "style") ms)
      && isNonEmptyString (lookup (lit "description") ms)
      && match lookup (lit "chapters") ms with
         | Some (JArr cs) =>
             Nat.leb 5 (List.length cs) && Nat.leb (List.length cs) 8
             && forallb isString cs
         | _ => false
         end
  | _ => false
  end.

(** The shape [generateOutlines] is specified to return: exactly three
    outline records. *)
Definition outlinesContract (v : JValue) : bool :=
  match v with
  | JObj ms =>
      match lookup (lit "outlines") ms with
      | Some (JArr os) => Nat.eqb (List.length os) 3 && forallb outlineOk os
      | _ => false
      end
  | _ => false
  end.

End Spec.
Export Spec.

(** ** Worlds and configurations to run the service in *)

Module Run.

Definition geminiConfig : AIConfig :=
  mkAIConfig gemini (lit "gemini-2.5-flash") None None.

Definition openaiConfig : AIConfig :=
  mkAIConfig openai (lit "gpt-4o") (Some (lit "sk-test"))
             (Some (lit "https://api.openai.com/v1/")).

Definition unreachable : JSError := mkError (lit "Failed to fetch").

(** The SDK answers every request with the text [t]; no HTTP endpoint. *)
Definition sdkReplies (t : jsstring) : World :=
  mkWorld (fun _ => inr (Some t)) (fun _ _ => inl unreachable).

(** The HTTP endpoint answers every request with a completion whose
    first choice has the content [t]. *)
Definition chatReplies (t : jsstring) : World :=
  mkWorld
    (fun _ => inl unreachable)
    (fun _ _ =>
       inr (mkResponse true 200 (inr [])
              (inr (JObj [(lit "choices",
                           JArr [JObj [(lit "message",
                                        JObj [(lit "content", JStr t)])]])])))).

(** The JSON text of an object whose [outlines] member is the empty
    array. *)
Definition noOutlines : jsstring :=
  lit "{" ++ dquote ++ lit "outlines" ++ dquote ++ lit ":[]}".

End Run.
Export Run.

(** ** The wizard: the data of [types.ts] and the handlers of the steps *)

Module Wizard.

(** [ChapterDetail]. *)
Record ChapterDetail : Type := mkChapterDetail {
  id : jsstring;
  title : jsstring;
  points : list jsstring;
  content : option jsstring;
  chartImage : option jsstring;
  isGenerating : option bool
}.


(** [xs.map((x, i) => f(i, x))], the index counted from [i]. *)
Fixpoint mapIndexFrom {A B} (i : nat) (f : nat -> A -> B) (xs : list A)
  : list B :=
  match xs with
  | [] => []
  | x :: rest => f i x :: mapIndexFrom (S i) f rest
  end.

(** [xs.filter((_, i) => i !== index)], the index counted from [i]. *)
Fixpoint dropIndexFrom {A} (i index : nat) (xs : list A) : list A :=
  match xs with
  | [] => []
  | x :: rest =>
      if Nat.eqb i index then dropIndexFrom (S i) index rest
      else x :: dropIndexFrom (S i) index rest
  end.

(** [i.toString()] for an array index. *)
Definition indexToString (i : nat) : jsstring := showN (N.of_nat i).

(** *** [App.tsx] *)

(** [getModelDisplayName()], on the configuration it reads. *)
Definition getModelDisplayName (aiConfig : AIConfig) : jsstring :=
  if streq (provider aiConfig) gemini then
    if includes (lit "pro") (modelName aiConfig)
    then lit "Gemini Pro" else lit "Gemini Flash"
  else
    if Nat.ltb 15 (List.length (modelName aiConfig))
    then firstn 12 (modelName aiConfig) ++ lit "..."
    else modelName aiConfig.

(** *** [Step1_Topic.tsx] *)

(** [addChapter], on the list it replaces. *)
Definition addChapter (editableChapters : list jsstring) : list jsstring :=
  editableChapters ++ [lit "New Chapter"].

(** [removeChapter(index)]. *)
Definition removeChapter (index : nat) (editableChapters : list jsstring)
  : list jsstring :=
  dropIndexFrom 0 index editableChapters.


(** *** [Step2_Details.tsx] *)

(** The initial state of [details]. *)
Definition initialDetails (chapters : list jsstring) : list ChapterDetail :=
  mapIndexFrom 0
    (fun i title =>
       mkChapterDetail (indexToString i) title [] None None (Some false))
    chapters.

(** The context [handleGeneratePoints(index)] passes on: the titles of
    the other chapters. *)
Definition contextFor (index : nat) (chapters : list jsstring)
  : list jsstring :=
  dropIndexFrom 0 index chapters.

Definition withPoints (d : ChapterDetail) (ps : list jsstring)
  : ChapterDetail :=
  mkChapterDetail (id d) (title d) ps (content d) (chartImage d)
                  (isGenerating d).

(** [details] with the element at [index] replaced by its image under
    [f]; [None] when there is no such element, where the handlers fail
    with a [TypeError] on [newDetails[index].points]. *)
Fixpoint updateAt (index : nat) (f : ChapterDetail -> ChapterDetail)
    (details : list ChapterDetail) : option (list ChapterDetail) :=
  match details, index with
  | [], _ => None
  | d :: rest, O => Some (f d :: rest)
  | d :: rest, S k =>
      match updateAt k f rest with
      | Some rest' => Some (d :: rest')
      | None => None
      end
  end.

(** [addPoint(chapterIndex)], on the state it replaces. *)
Definition addPoint (chapterIndex : nat) (details : list ChapterDetail)
  : option (list ChapterDetail) :=
  updateAt chapterIndex
           (fun d => withPoints d (points d ++ [lit "New point"])) details.

(** [removePoint(chapterIndex, pointIndex)]. *)
Definition removePoint (chapterIndex pointIndex : nat)
    (details : list ChapterDetail) : option (list ChapterDetail) :=
  updateAt chapterIndex
           (fun d => withPoints d (dropIndexFrom 0 pointIndex (points d)))
           details.

(** [isAllPlanned], which enables the button to the next step. *)
Definition isAllPlanned (details : list ChapterDetail) : bool :=
  forallb (fun d => Nat.ltb 0 (List.length (points d))) details.

(** *** [Step3_Drafting.tsx] *)

(** The callback of the [map] in [assembleFinal]. *)
Definition chapterSection (c : ChapterDetail) : jsstring :=
  lit "# " ++ title c ++ [10] ++ [10]
  ++ match content c with
     | Some ((_ :: _) as generated) => generated
     | _ => lit "(No content generated)"
     end.

(** [assembleFinal()], on the chapters it reads. *)
Definition assembleFinal (data : list ChapterDetail) : jsstring :=
  join ([10] ++ [10]) (map chapterSection data).

(** *** [SettingsModal.tsx] *)

Record Preset : Type := mkPreset {
  presetName : jsstring;
  presetBaseUrl : jsstring;
  presetModel : jsstring;
  presetDesc : jsstring
}.

Definition PRESETS : list Preset :=
  [ mkPreset (lit "Moonshot (Kimi)") (lit "https://api.moonshot.cn/v1")
             (lit "moonshot-v1-8k") (lit "High quality Chinese context");
    mkPreset (lit "DeepSeek") (lit "https://api.deepseek.com")
             (lit "deepseek-chat") (lit "Coding & reasoning specialist");
    mkPreset (lit "Qwen (Aliyun)")
             (lit "https://dashscope.aliyuncs.com/compatible-mode/v1")
             (lit "qwen-plus") (lit "Alibaba Cloud Qwen models");
    mkPreset (lit "Doubao (Volcengine)")
             (lit "https://ark.cn-beijing.volces.com/api/v3")
             (lit "ep-2024...")
             (lit "Note: Model Name requires Endpoint ID");
    mkPreset (lit "OpenAI (Official)") (lit "https://api.openai.com/v1")
             (lit "gpt-4o") (lit "Standard OpenAI API") ].

(** What [applyPreset(preset)] sets [localConfig] to. *)
Definition applyPreset (localConfig : AIConfig) (preset : Preset) : AIConfig :=
  mkAIConfig (provider localConfig)
             (presetModel preset)
             (Some (match apiKey localConfig with
                    | Some ((_ :: _) as key) => key
                    | _ => []
                    end))
             (Some (presetBaseUrl preset)).

Inductive ConnectionStatus : Type :=
| StatusIdle
| StatusTesting
| StatusSuccess
| StatusError.

(** [handleTestConnection()]: the events of the probe, and the [status]
    and [errorMessage] it leaves. *)
Definition handleTestConnection (w : World) (localConfig : AIConfig)
  : list Event * (ConnectionStatus * jsstring) :=
  match validateConnection w localConfig with
  | (t, inr _) => (t, (StatusSuccess, []))
  | (t, inl e) =>
      (t, (StatusError,
           match message e with
           | _ :: _ => message e
           | [] => lit "Connection failed"
           end))
  end.

End Wizard.

(** ** More worlds and states to run the code in *)

Module Scenarios.

(** The endpoint answers every request with [res]; no SDK. *)
Definition endpointAnswers (res : Response) : World :=
  mkWorld (fun _ => inl unreachable) (fun _ _ => inr res).

(** An answer with the status 401. *)
Definition unauthorized : Response :=
  mkResponse false 401 (inr (lit "Unauthorized"))
             (inl (mkError (lit "SyntaxError"))).

(** A successful answer whose first choice has the content [v]. *)
Definition completion (v : JValue) : Response :=
  mkResponse true 200 (inr [])
    (inr (JObj [(lit "choices",
                 JArr [JObj [(lit "message", JObj [(lit "content", v)])]])])).

(** A successful answer whose body is the empty object. *)
Definition emptyCompletion : Response :=
  mkResponse true 200 (inr (lit "{}")) (inr (JObj [])).

(** The JSON text of an object whose [details] member is an array of
    the one string [a]. *)
Definition oneDetail : jsstring :=
  lit "{" ++ dquote ++ lit "details" ++ dquote ++ lit ":[" ++ dquote
  ++ lit "a" ++ dquote ++ lit "]}".

Definition planned (t : jsstring) (ps : list jsstring)
  : Wizard.ChapterDetail :=
  Wizard.mkChapterDetail (lit "0") t ps None None (Some false).

Definition written (t c : jsstring) : Wizard.ChapterDetail :=
  Wizard.mkChapterDetail (lit "0") t [] (Some c) None (Some false).

Definition customConfig : AIConfig :=
  mkAIConfig openai (lit "my-own-large-language-model")
             (Some (lit "sk-test")) (Some (lit "https://llm.example.org")).

End Scenarios.
Export Scenarios.

(** * Properties *)

(** ** Strings *)

Module StringFacts.

Lemma streq_refl (a : jsstring) : streq a a = true.
Proof.
  induction a as [|x a IH]; simpl; [reflexivity|].
  now rewrite N.eqb_refl, IH.
Qed.

Lemma streq_eq (a b : jsstring) : streq a b = true -> a = b.
Proof.
  revert b; induction a as [|x a IH]; intros [|y b]; simpl; try discriminate.
  - reflexivity.
  - intros H. apply andb_true_iff in H as [Hxy Hab].
    apply N.eqb_eq in Hxy. f_equal; auto.
Qed.

Lemma streq_neq (a b : jsstring) : a <> b -> streq a b = false.
Proof.
  intros Hne. destruct (streq a b) eqn:E; [|reflexivity].
  now apply streq_eq in E.
Qed.

Lemma startsWith_app (p s : jsstring) : startsWith p (p ++ s) = true.
Proof.
  induction p as [|x p IH]; simpl; [reflexivity|].
  now rewrite N.eqb_refl, IH.
Qed.

Lemma startsWith_split (p s : jsstring) :
  startsWith p s = true -> s = p ++ skipn (List.length p) s.
Proof.
  revert s; induction p as [|x p IH]; intros s H; simpl in *; [reflexivity|].
  destruct s as [|y s]; [discriminate|].
  apply andb_true_iff in H as [Hxy Hps]. apply N.eqb_eq in Hxy. subst y.
  simpl. f_equal. auto.
Qed.

Lemma startsWith_length (p s : jsstring) :
  startsWith p s = true -> (List.length p <= List.length s)%nat.
Proof.
  revert s; induction p as [|x p IH]; intros [|y s] H; simpl in *;
    try lia; try discriminate.
  apply andb_true_iff in H as [_ H]. apply IH in H. lia.
Qed.

Lemma startsWith_shorter (p q s : jsstring) :
  startsWith (p ++ q) s = true -> startsWith p s = true.
Proof.
  revert s; induction p as [|x p IH]; intros s H; simpl in *; [reflexivity|].
  destruct s as [|y s]; [discriminate|].
  apply andb_true_iff in H as [Hxy H]. rewrite Hxy. simpl. eauto.
Qed.

Lemma startsWith_extend (p a b : jsstring) :
  startsWith p a = true -> startsWith p (a ++ b) = true.
Proof.
  revert a; induction p as [|x p IH]; intros a H; simpl in *; [reflexivity|].
  destruct a as [|y a]; [discriminate|]. simpl.
  apply andb_true_iff in H as [Hxy H]. rewrite Hxy. simpl. auto.
Qed.

(** A code unit that does not occur in the pattern cuts every match. *)
Lemma startsWith_sep (p : jsstring) (c : N) (a b : jsstring) :
  ~ In c p -> startsWith p (a ++ c :: b) = startsWith p a.
Proof.
  revert a; induction p as [|x p IH]; intros a Hc; simpl; [reflexivity|].
  destruct a as [|y a]; simpl.
  - destruct (N.eqb_spec x c) as [->|_]; [|reflexivity].
    exfalso. apply Hc. now left.
  - rewrite IH; [reflexivity|]. intros Hin. apply Hc. now right.
Qed.

Lemma includes_shorter (p q s : jsstring) :
  includes (p ++ q) s = true -> includes p s = true.
Proof.
  induction s as [|y s IH]; simpl; intros H.
  - rewrite orb_false_r in *. eapply startsWith_shorter; eauto.
  - apply orb_true_iff in H as [H|H].
    + erewrite startsWith_shorter; eauto.
    + rewrite IH; auto using orb_true_r.
Qed.

Lemma includes_app_r (p a b : jsstring) :
  includes p b = true -> includes p (a ++ b) = true.
Proof.
  intros H. induction a as [|y a IH]; simpl; [assumption|].
  rewrite IH. apply orb_true_r.
Qed.

Lemma includes_app_l (p a b : jsstring) :
  includes p a = true -> includes p (a ++ b) = true.
Proof.
  induction a as [|y a IH]; simpl; intros H.
  - rewrite orb_false_r in H. destruct p; [|discriminate].
    destruct b; reflexivity.
  - apply orb_true_iff in H as [H|H].
    + apply (startsWith_extend _ (y :: a) b) in H. simpl in H.
      rewrite H. reflexivity.
    + rewrite IH; auto using orb_true_r.
Qed.

Lemma includes_here (p s : jsstring) : includes p (p ++ s) = true.
Proof.
  destruct (p ++ s) eqn:E; simpl; rewrite <- E, startsWith_app; reflexivity.
Qed.

(** A string without the pattern has it in no part of it. *)
Lemma includes_middle (p a x b : jsstring) :
  includes p (a ++ x ++ b) = false -> includes p x = false.
Proof.
  intros H. destruct (includes p x) eqn:E; [|reflexivity].
  rewrite <- H. symmetry. apply includes_app_r, includes_app_l, E.
Qed.

Lemma includes_skipn (p s : jsstring) (k : nat) :
  includes p s = false -> startsWith p (skipn k s) = false.
Proof.
  revert s; induction k as [|k IH]; intros s H.
  - destruct s; simpl in *; now apply orb_false_iff in H as [H _].
  - destruct s as [|y s]; simpl in *.
    + now apply orb_false_iff in H as [H _].
    + apply orb_false_iff in H as [_ H]. auto.
Qed.

Lemma stripPrefix_app (p d : jsstring) : stripPrefix p (p ++ d) = Some d.
Proof.
  induction p as [|x p IH]; simpl; [reflexivity|].
  now rewrite N.eqb_refl.
Qed.

Lemma stripPrefix_Some (p s d : jsstring) :
  stripPrefix p s = Some d -> s = p ++ d.
Proof.
  revert s; induction p as [|x p IH]; intros s H; simpl in *.
  - now inversion H.
  - destruct s as [|y s]; [discriminate|].
    destruct (N.eqb_spec x y) as [->|_]; [|discriminate].
    f_equal. auto.
Qed.

Lemma stripPrefix_None (p s : jsstring) :
  startsWith p s = false -> stripPrefix p s = None.
Proof.
  revert s; induction p as [|x p IH]; intros s H; simpl in *; [discriminate|].
  destruct s as [|y s]; [reflexivity|].
  destruct (x =? y); simpl in H; auto.
Qed.

End StringFacts.
Import StringFacts.

(** ** Global replacement and trimming *)

Module ReplaceFacts.

Lemma remove_from_skip (p : jsstring) (k : nat) (s : jsstring) :
  remove_from p k s = removeAll p (skipn k s).
Proof.
  revert k; induction s as [|c s IH]; intros [|k]; try reflexivity.
  simpl. apply IH.
Qed.

(** The unfolding of [removeAll] at one code unit. *)
Lemma removeAll_cons (p : jsstring) (c : N) (s : jsstring) :
  p <> [] ->
  removeAll p (c :: s) =
  if startsWith p (c :: s)
  then removeAll p (skipn (List.length p) (c :: s))
  else c :: removeAll p s.
Proof.
  intros Hp. destruct p as [|x p]; [contradiction|].
  unfold removeAll at 1. cbn [remove_from].
  destruct (startsWith (x :: p) (c :: s)); [|reflexivity].
  rewrite remove_from_skip. f_equal. simpl.
  now rewrite Nat.sub_0_r.
Qed.

Lemma removeAll_absent (p s : jsstring) :
  p <> [] -> includes p s = false -> removeAll p s = s.
Proof.
  intros Hp. induction s as [|c s IH]; intros H; [reflexivity|].
  rewrite removeAll_cons by assumption.
  cbn [includes] in H. apply orb_false_iff in H as [Hhere Hrest].
  rewrite Hhere. f_equal. auto.
Qed.

(** A code unit foreign to the pattern splits the replacement. *)
Lemma removeAll_sep (p : jsstring) (c : N) (a b : jsstring) :
  p <> [] -> ~ In c p ->
  removeAll p (a ++ c :: b) = removeAll p a ++ c :: removeAll p b.
Proof.
  intros Hp Hc.
  remember (List.length a) as n eqn:Hn.
  assert (Hle : (List.length a <= n)%nat) by lia. clear Hn.
  revert a Hle. induction n as [|n IH]; intros a Hle;
    (destruct a as [|y a];
     [ pose proof (startsWith_sep p c [] b Hc) as H0; cbn [app] in H0 |-*;
       rewrite removeAll_cons, H0 by assumption;
       destruct p; [contradiction|reflexivity]
     | ]).
  - simpl in Hle. lia.
  - change ((y :: a) ++ c :: b) with (y :: (a ++ c :: b)).
    rewrite !removeAll_cons by assumption.
    change (y :: (a ++ c :: b)) with ((y :: a) ++ c :: b).
    rewrite (startsWith_sep p c (y :: a) b Hc).
    destruct (startsWith p (y :: a)) eqn:E.
    + pose proof (startsWith_length _ _ E) as Hlen.
      rewrite skipn_app.
      replace (List.length p - List.length (y :: a))%nat with 0%nat by lia.
      cbn [skipn]. apply IH.
      rewrite length_skipn. destruct p; [contradiction|].
      simpl in *. lia.
    + simpl. f_equal. apply IH. simpl in Hle. lia.
Qed.

Lemma isSpace_head_fixed (s : jsstring) :
  match s with c :: _ => isSpace c = false | [] => True end ->
  trimStart s = s.
Proof. destruct s as [|c s]; simpl; [reflexivity|]. now intros ->. Qed.

Lemma trimStart_head (s : jsstring) :
  match trimStart s with c :: _ => isSpace c = false | [] => True end.
Proof.
  induction s as [|c s IH]; simpl; [exact I|].
  destruct (isSpace c) eqn:E; [assumption|simpl; assumption].
Qed.

Lemma trimStart_idem (s : jsstring) : trimStart (trimStart s) = trimStart s.
Proof. apply isSpace_head_fixed, trimStart_head. Qed.

Lemma trimStart_suffix (s : jsstring) : exists a, s = a ++ trimStart s.
Proof.
  induction s as [|c s [a IH]]; simpl.
  - now exists [].
  - destruct (isSpace c).
    + exists (c :: a). simpl. now f_equal.
    + now exists [].
Qed.

Lemma trimEnd_prefix (s : jsstring) : exists b, s = trimEnd s ++ b.
Proof.
  destruct (trimStart_suffix (rev s)) as [a Ha].
  exists (rev a). unfold trimEnd.
  rewrite <- rev_app_distr, <- Ha. now rewrite rev_involutive.
Qed.

Lemma trimEnd_idem (s : jsstring) : trimEnd (trimEnd s) = trimEnd s.
Proof. unfold trimEnd. now rewrite rev_involutive, trimStart_idem. Qed.

Lemma trim_idem (s : jsstring) : trim (trim s) = trim s.
Proof.
  unfold trim at 1. rewrite isSpace_head_fixed.
  - unfold trim. apply trimEnd_idem.
  - unfold trim. pose proof (trimStart_head s) as Hh.
    destruct (trimEnd_prefix (trimStart s)) as [b Hb].
    destruct (trimEnd (trimStart s)) as [|c t]; [exact I|].
    rewrite Hb in Hh. exact Hh.
Qed.

Lemma trim_substring (s : jsstring) : exists a b, s = a ++ trim s ++ b.
Proof.
  destruct (trimStart_suffix s) as [a Ha].
  destruct (trimEnd_prefix (trimStart s)) as [b Hb].
  exists a, b. unfold trim. now rewrite <- Hb.
Qed.

Lemma trimStart_snoc (x : jsstring) (c : N) :
  isSpace c = true ->
  trimStart (x ++ [c]) =
  match trimStart x with [] => [] | _ :: _ => trimStart x ++ [c] end.
Proof.
  intros Hc. induction x as [|y x IH]; simpl.
  - now rewrite Hc.
  - destruct (isSpace y); [assumption|reflexivity].
Qed.

Lemma trimEnd_snoc (t : jsstring) (c : N) :
  isSpace c = true -> trimEnd (t ++ [c]) = trimEnd t.
Proof.
  intros Hc. unfold trimEnd. rewrite rev_app_distr. simpl. now rewrite Hc.
Qed.

(** White space around a text does not survive [trim]. *)
Lemma trim_between_newlines (x : jsstring) : trim (nl ++ x ++ nl) = trim x.
Proof.
  unfold trim. change (nl ++ x ++ nl) with (10 :: (x ++ [10])).
  change (trimStart (10 :: (x ++ [10]))) with (trimStart (x ++ [10])).
  rewrite trimStart_snoc by reflexivity.
  destruct (trimStart x) eqn:E; [reflexivity|].
  apply trimEnd_snoc. reflexivity.
Qed.

End ReplaceFacts.
Import ReplaceFacts.

(** ** Code fences *)

Module FenceFacts.

Lemma fence_nonempty : fence <> [].
Proof. discriminate. Qed.

Lemma fenceJson_nonempty : fenceJson <> [].
Proof. discriminate. Qed.

Lemma fence_needs_backquotes (p q s : jsstring) :
  fence = p ++ q -> startsWith p s = false -> startsWith fence s = false.
Proof.
  intros -> H. destruct (startsWith (p ++ q) s) eqn:E; [|reflexivity].
  apply startsWith_shorter in E. congruence.
Qed.

(** After the replacement a string that did not start with a backquote
    does not start with one. *)
Lemma no_backquote_after (s : jsstring) :
  startsWith [96] s = false -> startsWith [96] (removeAll fence s) = false.
Proof.
  destruct s as [|y s]; [reflexivity|]. intros H.
  rewrite removeAll_cons by apply fence_nonempty.
  rewrite (fence_needs_backquotes [96] [96; 96] _ eq_refl H).
  exact H.
Qed.

Lemma no_two_backquotes_after (s : jsstring) :
  startsWith [96; 96] s = false ->
  startsWith [96; 96] (removeAll fence s) = false.
Proof.
  destruct s as [|y s]; [reflexivity|]. intros H.
  rewrite removeAll_cons by apply fence_nonempty.
  rewrite (fence_needs_backquotes [96; 96] [96] _ eq_refl H).
  change ((96 =? y) && startsWith [96] s = false) in H.
  change ((96 =? y) && startsWith [96] (removeAll fence s) = false).
  destruct (96 =? y); [|reflexivity].
  apply no_backquote_after. exact H.
Qed.

(** What is left of a string after the replacement of the fence does not
    start with one. *)
Lemma no_fence_at_start (s : jsstring) :
  startsWith fence (removeAll fence s) = false.
Proof.
  remember (List.length s) as n eqn:Hn.
  assert (Hle : (List.length s <= n)%nat) by lia. clear Hn.
  revert s Hle. induction n as [|n IH]; intros s Hle.
  - destruct s; [reflexivity|simpl in Hle; lia].
  - destruct s as [|y s]; [reflexivity|].
    rewrite removeAll_cons by apply fence_nonempty.
    destruct (startsWith fence (y :: s)) eqn:E.
    + apply IH. rewrite length_skipn. simpl in *. lia.
    + change ((96 =? y) && startsWith [96; 96] s = false) in E.
      change ((96 =? y) && startsWith [96; 96] (removeAll fence s) = false).
      destruct (96 =? y); [|reflexivity].
      apply no_two_backquotes_after. exact E.
Qed.

(** Nor does it contain a fence anywhere. *)
Lemma no_fence_left (s : jsstring) :
  includes fence (removeAll fence s) = false.
Proof.
  remember (List.length s) as n eqn:Hn.
  assert (Hle : (List.length s <= n)%nat) by lia. clear Hn.
  revert s Hle. induction n as [|n IH]; intros s Hle.
  - destruct s; [reflexivity|simpl in Hle; lia].
  - destruct s as [|y s]; [reflexivity|].
    pose proof (no_fence_at_start (y :: s)) as Hstart.
    rewrite removeAll_cons in * by apply fence_nonempty.
    destruct (startsWith fence (y :: s)) eqn:E.
    + apply IH. rewrite length_skipn. simpl in *. lia.
    + cbn [includes]. rewrite Hstart. simpl. apply IH. simpl in Hle. lia.
Qed.

Lemma stripCodeFence_clean (s : jsstring) :
  includes fence (stripCodeFence s) = false.
Proof.
  unfold stripCodeFence.
  destruct (trim_substring (removeAll fence (removeAll fenceJson s)))
    as (a & b & Hab).
  apply (includes_middle fence a _ b). rewrite <- Hab. apply no_fence_left.
Qed.

(** A text without a fence is only trimmed. *)
Lemma stripCodeFence_absent (s : jsstring) :
  includes fence s = false -> stripCodeFence s = trim s.
Proof.
  intros H. unfold stripCodeFence.
  rewrite (removeAll_absent fenceJson s).
  - now rewrite removeAll_absent by (assumption || apply fence_nonempty).
  - apply fenceJson_nonempty.
  - destruct (includes fenceJson s) eqn:E; [|reflexivity].
    apply (includes_shorter fence (lit "json")) in E. congruence.
Qed.

Lemma stripCodeFence_idem (s : jsstring) :
  stripCodeFence (stripCodeFence s) = stripCodeFence s.
Proof.
  rewrite stripCodeFence_absent by apply stripCodeFence_clean.
  unfold stripCodeFence. apply trim_idem.
Qed.

Lemma removeAll_between_newlines (p before x after : jsstring) :
  p <> [] -> ~ In 10 p ->
  removeAll p (before ++ nl ++ x ++ nl ++ after) =
  removeAll p before ++ nl ++ removeAll p x ++ nl ++ removeAll p after.
Proof.
  intros Hp H10. unfold nl. cbn [app].
  now rewrite !removeAll_sep by assumption.
Qed.

Lemma stripCodeFence_fenceWrap (j : jsstring) :
  stripCodeFence (fenceWrap j) = stripCodeFence j.
Proof.
  assert (H10J : ~ In 10 fenceJson) by (vm_compute; intuition discriminate).
  assert (H10F : ~ In 10 fence) by (vm_compute; intuition discriminate).
  assert (E1 : removeAll fenceJson (fenceWrap j)
               = [] ++ nl ++ removeAll fenceJson j ++ nl ++ fence).
  { exact (removeAll_between_newlines fenceJson fenceJson j fence
             fenceJson_nonempty H10J). }
  assert (E2 : removeAll fence ([] ++ nl ++ removeAll fenceJson j ++ nl ++ fence)
               = nl ++ removeAll fence (removeAll fenceJson j) ++ nl).
  { rewrite (removeAll_between_newlines fence [] (removeAll fenceJson j) fence
               fence_nonempty H10F).
    change (removeAll fence fence) with (@nil N). now rewrite app_nil_r. }
  unfold stripCodeFence. rewrite E1, E2. apply trim_between_newlines.
Qed.

End FenceFacts.
Import FenceFacts.

(** ** The data-URI pattern *)

Module PatternFacts.

Lemma matchGroups_sound (r g1 g2 : jsstring) :
  matchGroups r = Some (g1, g2) ->
  r = g1 ++ separator ++ g2
  /\ g1 <> [] /\ g2 <> []
  /\ noLineTerminator g1 = true /\ noLineTerminator g2 = true.
Proof.
  revert g1 g2; induction r as [|c r IH]; intros g1 g2 H; [discriminate|].
  cbn [matchGroups] in H.
  destruct (isLineTerminator c) eqn:Hc; [discriminate|].
  destruct (matchGroups r) as [[h1 h2]|] eqn:Hr.
  - inversion H; subst. destruct (IH _ _ eq_refl) as (-> & _ & Hg2 & Hn1 & Hn2).
    repeat split; try assumption; try discriminate.
    unfold noLineTerminator in *. cbn [forallb]. now rewrite Hc, Hn1.
  - fold separator in H.
    destruct (stripPrefix separator r) as [d|] eqn:Hd; [|discriminate].
    apply stripPrefix_Some in Hd. subst r.
    destruct d as [|x d]; [discriminate|].
    destruct (forallb _ (x :: d)) eqn:Hn; [|discriminate].
    inversion H; subst. repeat split; try discriminate.
    + unfold noLineTerminator. cbn [forallb]. now rewrite Hc.
    + exact Hn.
Qed.

(** No match when the separator starts at no later position. *)
Lemma matchGroups_none (r : jsstring) :
  (forall k, startsWith separator (skipn (S k) r) = false) ->
  matchGroups r = None.
Proof.
  induction r as [|c r IH]; intros H; [reflexivity|].
  cbn [matchGroups]. destruct (isLineTerminator c); [reflexivity|].
  rewrite IH by (intros k; apply (H (S k))).
  fold separator. rewrite stripPrefix_None; [reflexivity|]. apply (H 0%nat).
Qed.

Lemma matchGroups_after_separator (d : jsstring) :
  includes separator d = false -> matchGroups (separator ++ d) = None.
Proof.
  intros H. apply matchGroups_none. intros k.
  do 7 (destruct k as [|k]; [reflexivity|]).
  change (skipn (S (S (S (S (S (S (S (S k)))))))) (separator ++ d))
    with (skipn k d).
  now apply includes_skipn.
Qed.

(** The pattern reads back what the template wrote. *)
Lemma matchGroups_complete (m d : jsstring) :
  m <> [] -> d <> [] ->
  noLineTerminator m = true -> noLineTerminator d = true ->
  includes separator d = false ->
  matchGroups (m ++ separator ++ d) = Some (m, d).
Proof.
  intros Hm Hd Hnm Hnd Hsep.
  induction m as [|c m IH]; [contradiction|].
  unfold noLineTerminator in Hnm. cbn [forallb] in Hnm.
  apply andb_true_iff in Hnm as [Hc Hnm]. apply negb_true_iff in Hc.
  change ((c :: m) ++ separator ++ d) with (c :: (m ++ separator ++ d)).
  cbn [matchGroups]. rewrite Hc.
  destruct m as [|c' m].
  - cbn [app]. rewrite matchGroups_after_separator by assumption.
    fold separator. rewrite stripPrefix_app.
    destruct d as [|x d]; [contradiction|].
    unfold noLineTerminator in Hnd. now rewrite Hnd.
  - rewrite IH; [reflexivity|discriminate|exact Hnm].
Qed.

Lemma matchDataUri_sound (s m d : jsstring) :
  matchDataUri s = Some (m, d) ->
  s = dataUri m d /\ m <> [] /\ d <> [].
Proof.
  unfold matchDataUri, dataUri. intros H.
  destruct (stripPrefix (lit "data:") s) as [r|] eqn:Hr; [|discriminate].
  apply stripPrefix_Some in Hr. subst s.
  apply matchGroups_sound in H as (-> & Hm & Hd & _). auto.
Qed.

Lemma matchDataUri_complete (m d : jsstring) :
  m <> [] -> d <> [] ->
  noLineTerminator m = true -> noLineTerminator d = true ->
  includes separator d = false ->
  matchDataUri (dataUri m d) = Some (m, d).
Proof.
  intros. unfold matchDataUri, dataUri. rewrite stripPrefix_app.
  now apply matchGroups_complete.
Qed.

End PatternFacts.
Import PatternFacts.

(** ** The gateway *)

Module GatewayFacts.

Lemma removeTrailingSlash_slash (stem : jsstring) :
  removeTrailingSlash (stem ++ [47]) = stem.
Proof.
  induction stem as [|c stem IH]; [reflexivity|].
  change ((c :: stem) ++ [47]) with (c :: (stem ++ [47])).
  cbn [removeTrailingSlash]. rewrite IH.
  destruct stem; reflexivity.
Qed.

Lemma removeTrailingSlash_other (s : jsstring) :
  (forall stem, s <> stem ++ [47]) -> removeTrailingSlash s = s.
Proof.
  induction s as [|c s IH]; intros H; [reflexivity|].
  cbn [removeTrailingSlash]. destruct s as [|d s].
  - destruct (N.eqb_spec c 47) as [->|_]; [|reflexivity].
    exfalso. apply (H []). reflexivity.
  - f_equal. apply IH. intros stem E. apply (H (c :: stem)).
    rewrite E. reflexivity.
Qed.

(** With a key and a base URL the OpenAI path performs one network call,
    a [fetch], whatever the endpoint answers. *)
Lemma callAI_openai_request (w : World) (prompt : Prompt) (config : AIConfig)
    (systemInstruction mime : option jsstring) (schema : option Schema)
    (key base : jsstring) :
  provider config = openai ->
  apiKey config = Some key -> key <> [] ->
  baseUrl config = Some base -> base <> [] ->
  exists system userContent format,
    (system = [] \/
     exists instr, system = [mkMessage (lit "system") (ContentString instr)])
    /\ networkCalls
      (trace (callAI w prompt config systemInstruction mime schema)) =
    [HttpFetch
       (if negb (includes chatCompletionsPath base)
        then removeTrailingSlash base ++ chatCompletionsPath else base)
       (mkRequestInit
          (lit "POST")
          [(lit "Content-Type", lit "application/json");
           (lit "Authorization", lit "Bearer " ++ key)]
          (mkChatBody (modelName config)
                      (system ++ [mkMessage (lit "user") userContent])
                      (lit "0.7") format))]
    /\ (forall parts, prompt = PromptParts parts ->
          userContent = ContentArray (toOpenAIContent parts)).
Proof.
  intros Hp Hk Hkey Hb Hbase.
  unfold callAI. rewrite Hp, Hk, Hb.
  change (streq openai gemini) with false.
  change (streq openai openai) with true. cbv iota.
  destruct key as [|k0 key]; [contradiction|].
  destruct base as [|b0 base]; [contradiction|].
  eexists _, _, _. split; [|split].
  2: { unfold tryCatch, bind, fetch, lift, throw, ret, consoleError, emit, trace.
       destruct (fetchAnswer w _ _) as [e|res]; [reflexivity|].
       destruct (ok res); cbn [negb].
       - destruct (resJson res) as [e|d]; [reflexivity|].
         destruct (getProp d _) as [e|c]; reflexivity.
       - destruct (resText res) as [e|t]; reflexivity. }
  - destruct systemInstruction as [[|i0 instr]|]; eauto.
  - intros parts ->. reflexivity.
Qed.

(** Without a key or without a base URL the OpenAI path throws at once. *)
Lemma callAI_missing_configuration (w : World) (prompt : Prompt)
    (config : AIConfig) (systemInstruction mime : option jsstring)
    (schema : option Schema) :
  provider config = openai ->
  truthyStr (apiKey config) = false \/ truthyStr (baseUrl config) = false ->
  callAI w prompt config systemInstruction mime schema
  = ([], inl (mkError
                (lit "Missing API Key or Base URL for custom provider"))).
Proof.
  intros Hp H. unfold callAI. rewrite Hp.
  change (streq openai gemini) with false.
  change (streq openai openai) with true. cbv iota.
  destruct (apiKey config) as [[|k0 key]|], (baseUrl config) as [[|b0 base]|];
    try reflexivity.
  destruct H; discriminate.
Qed.

Lemma callAI_unknown_provider (w : World) (prompt : Prompt)
    (config : AIConfig) (systemInstruction mime : option jsstring)
    (schema : option Schema) :
  provider config <> gemini -> provider config <> openai ->
  callAI w prompt config systemInstruction mime schema
  = ([], inl (mkError (lit "Unknown Provider"))).
Proof.
  intros Hg Ho. unfold callAI.
  now rewrite (streq_neq _ _ Hg), (streq_neq _ _ Ho).
Qed.

Lemma sentUserContent_networkCalls (t : list Event) :
  sentUserContent t = sentUserContent (networkCalls t).
Proof.
  unfold sentUserContent, networkCalls.
  induction t as [|ev t IH]; [reflexivity|].
  destruct ev; cbn [flat_map filter isNetworkCall app]; now rewrite IH.
Qed.

End GatewayFacts.
Import GatewayFacts.

(** ** The fallback of [generateChapterDetails] *)

Module ServiceFacts.

(** On a response that does not parse, [generateChapterDetails] does not
    throw: it returns the bullet lines of the raw text, each through the
    marker replacement. *)
Lemma generateChapterDetails_fallback
    (JSON_parse : jsstring -> JSError + JValue) (w : World)
    (topic chapterTitle : jsstring) (context : list jsstring)
    (config : AIConfig) (t : list Event) (response : jsstring) (e : JSError) :
  callAI w (PromptString (detailsPrompt topic chapterTitle context)) config
         None (Some applicationJson) (schemaFor config detailsSchema)
  = (t, inr (JStr response)) ->
  JSON_parse (stripCodeFence response) = inl e ->
  generateChapterDetails JSON_parse w topic chapterTitle context config
  = (t, inr (Some (JArr (map JStr
                           (map removeLeadingMarker
                                (filter isBulletLine
                                        (splitLines response))))))).
Proof.
  intros Hcall Hparse. unfold generateChapterDetails. rewrite Hcall.
  unfold bind, tryCatch, asString, ret, lift.
  cbn -[lit splitLines isBulletLine removeLeadingMarker].
  rewrite Hparse. cbn -[lit splitLines isBulletLine removeLeadingMarker].
  now rewrite !app_nil_r.
Qed.

(** Without a bullet line the fallback is the empty array. *)
Lemma fallback_without_bullets (response : jsstring) :
  forallb (fun l => negb (isBulletLine l)) (splitLines response) = true ->
  filter isBulletLine (splitLines response) = [].
Proof.
  induction (splitLines response) as [|l ls IH]; [reflexivity|].
  cbn [forallb filter]. intros H. apply andb_true_iff in H as [Hl Hls].
  apply negb_true_iff in Hl. rewrite Hl. auto.
Qed.

(** A line that starts with its marker loses it, and the white space
    after it. *)
Lemma removeLeadingMarker_marker (c : N) (rest : jsstring) :
  c = 45 \/ c = 8226 -> removeLeadingMarker (c :: rest) = trimStart rest.
Proof. intros [->| ->]; reflexivity. Qed.

(** A line that starts with white space is returned as it is. *)
Lemma removeLeadingMarker_indented (c : N) (rest : jsstring) :
  isSpace c = true -> removeLeadingMarker (c :: rest) = c :: rest.
Proof.
  intros H. unfold removeLeadingMarker.
  destruct (N.eqb_spec c 45) as [->|_]; [discriminate|].
  destruct (N.eqb_spec c 8226) as [->|_]; [discriminate|].
  reflexivity.
Qed.

(** A receivable part is a part as the specification has it. *)
Lemma receivable_wellShaped (p : Part) : receivable p -> wellShaped p.
Proof.
  intros [(t & _ & ->)|(image & m & d & _ & ->)].
  - left. now exists t.
  - right. now exists m, d.
Qed.

(** What [generateChapterContent] hands to the gateway: a string, or
    parts that are all receivable. *)
Lemma generateChapterContent_prompt_receivable
    (w : World) (topic chapterTitle : jsstring) (points : list jsstring)
    (tone : jsstring) (config : AIConfig)
    (chartImageBase64 : option jsstring) :
  (exists s,
      generateChapterContent w topic chapterTitle points tone config
                             chartImageBase64
      = callAI w (PromptString s) config None None None)
  \/ (exists parts,
         generateChapterContent w topic chapterTitle points tone config
                                chartImageBase64
         = callAI w (PromptParts parts) config None None None
         /\ Forall receivable parts).
Proof.
  unfold generateChapterContent.
  destruct chartImageBase64 as [[|c image]|]; try (left; eexists; reflexivity).
  destruct (matchDataUri (c :: image)) as [[m d]|] eqn:Hm;
    [|left; eexists; reflexivity].
  right. eexists. split; [reflexivity|].
  apply Forall_cons; [|apply Forall_cons; [|apply Forall_nil]].
  - right. now exists (c :: image), m, d.
  - left. eexists. split; [|reflexivity].
    unfold contentPromptText, contentPrompt. discriminate.
Qed.

End ServiceFacts.
Import ServiceFacts.

(** ** The claims *)

(** C1. With the provider [openai] and a base URL, every network call
    of the gateway is an HTTP POST to one URL: the base URL as it is when
    it contains [/chat/completions], and otherwise the base URL without
    its trailing slash, if it has one, followed by [/chat/completions].
    With a key and a non-empty base URL there is exactly one such call. *)
Theorem callAI_posts_to_normalized_url
    (w : World) (prompt : Prompt) (config : AIConfig)
    (systemInstruction mime : option jsstring) (schema : option Schema)
    (base : jsstring) :
  provider config = openai ->
  baseUrl config = Some base ->
  exists url,
    (includes chatCompletionsPath base = true -> url = base)
    /\ (includes chatCompletionsPath base = false ->
        (forall stem, base = stem ++ [47] ->
                      url = stem ++ chatCompletionsPath)
        /\ ((forall stem, base <> stem ++ [47]) ->
            url = base ++ chatCompletionsPath))
    /\ (forall ev,
          In ev (networkCalls
                   (trace (callAI w prompt config systemInstruction mime
                                  schema))) ->
          exists init, ev = HttpFetch url init /\ method init = lit "POST")
    /\ (truthyStr (apiKey config) = true -> base <> [] ->
        exists init,
          networkCalls
            (trace (callAI w prompt config systemInstruction mime schema))
          = [HttpFetch url init]).
Proof.
  intros Hp Hb.
  exists (if negb (includes chatCompletionsPath base)
          then removeTrailingSlash base ++ chatCompletionsPath else base).
  split; [intros ->; reflexivity|]. split.
  { intros ->. cbn [negb]. split.
    - intros stem ->. now rewrite removeTrailingSlash_slash.
    - intros Hno. now rewrite removeTrailingSlash_other. }
  destruct (apiKey config) as [[|k0 key]|] eqn:Hk;
    [| destruct base as [|b0 base] |].
  1, 2, 4: rewrite callAI_missing_configuration
    by (assumption || (rewrite ?Hk, ?Hb; cbn; auto));
    (split; [intros ev []| intros; cbn in *; congruence]).
  destruct (callAI_openai_request w prompt config systemInstruction mime
              schema (k0 :: key) (b0 :: base) Hp Hk ltac:(discriminate)
              Hb ltac:(discriminate))
    as (system & userContent & format & _ & Hcalls & _).
  rewrite Hcalls. split.
  - intros ev [<-|[]]. eexists. split; reflexivity.
  - intros _ _. eexists. reflexivity.
Qed.

Lemma callAI_posts_to_normalized_url_witness :
  exists init,
    networkCalls
      (trace (callAI (chatReplies []) (PromptString (lit "Hi")) openaiConfig
                     None None None))
    = [HttpFetch (lit "https://api.openai.com/v1/chat/completions") init].
Proof.
  destruct (callAI_posts_to_normalized_url
              (chatReplies []) (PromptString (lit "Hi")) openaiConfig
              None None None (lit "https://api.openai.com/v1/")
              eq_refl eq_refl)
    as (url & _ & Hurl & _ & Hone).
  destruct (Hurl eq_refl) as [Hslash _].
  rewrite (Hslash (lit "https://api.openai.com/v1") eq_refl) in Hone.
  apply Hone; [reflexivity|discriminate].
Defined.

(** C2. On the OpenAI path a prompt of receivable parts is sent as the
    content array with one entry per part, in the order of the parts:
    the text for a text part, and for an image part the URL
    [data:<mimeType>;base64,<data>]; and the data-URI pattern reads the
    mime type and the payload of the part back from that URL. *)
Theorem multimodal_translation
    (w : World) (config : AIConfig)
    (systemInstruction mime : option jsstring) (schema : option Schema)
    (key base : jsstring) (parts : list Part) :
  provider config = openai ->
  apiKey config = Some key -> key <> [] ->
  baseUrl config = Some base -> base <> [] ->
  Forall receivable parts ->
  sentUserContent
    (trace (callAI w (PromptParts parts) config systemInstruction mime schema))
  = [ContentArray (map specEntry parts)]
  /\ (forall t, In (textPart t) parts ->
                In (EntryText t) (map specEntry parts))
  /\ (forall m d,
        In (imagePart m d) parts ->
        In (EntryImageUrl (dataUri m d)) (map specEntry parts)
        /\ matchDataUri (dataUri m d) = Some (m, d)).
Proof.
  intros Hp Hk Hkey Hb Hbase Hparts.
  assert (Hmap : toOpenAIContent parts = map specEntry parts).
  { unfold toOpenAIContent.
    induction Hparts as [|p ps [(t & Ht & ->)|(image & m & d & _ & ->)] _ IH];
      [reflexivity| |].
    - destruct t as [|c t]; [contradiction|]. cbn. now f_equal.
    - cbn. now f_equal. }
  split; [|split].
  - destruct (callAI_openai_request w (PromptParts parts) config
                systemInstruction mime schema key base Hp Hk Hkey Hb Hbase)
      as (system & userContent & format & Hsys & Hcalls & Hcontent).
    rewrite sentUserContent_networkCalls, Hcalls.
    rewrite (Hcontent parts eq_refl), Hmap.
    destruct Hsys as [->|(instr & ->)]; reflexivity.
  - intros t Hin. apply (in_map specEntry) in Hin. exact Hin.
  - intros m d Hin. split.
    + apply (in_map specEntry) in Hin. exact Hin.
    + rewrite Forall_forall in Hparts.
      destruct (Hparts _ Hin) as [(t & _ & E)|(image & m' & d' & Hm & E)];
        [discriminate|].
      injection E as -> ->.
      destruct (matchDataUri_sound _ _ _ Hm) as (<- & _ & _). exact Hm.
Qed.

Lemma multimodal_translation_witness :
  sentUserContent
    (trace (callAI (chatReplies [])
                   (PromptParts [imagePart (lit "image/png") (lit "iVBORw0KGgo=");
                                 textPart (lit "Describe the chart")])
                   openaiConfig None None None))
  = [ContentArray
       (map specEntry [imagePart (lit "image/png") (lit "iVBORw0KGgo=");
                       textPart (lit "Describe the chart")])]
  /\ matchDataUri (dataUri (lit "image/png") (lit "iVBORw0KGgo="))
     = Some (lit "image/png", lit "iVBORw0KGgo=").
Proof.
  assert (Hshape :
    Forall receivable
           [imagePart (lit "image/png") (lit "iVBORw0KGgo=");
            textPart (lit "Describe the chart")]).
  { apply Forall_cons; [|apply Forall_cons; [|apply Forall_nil]].
    - right. exists (lit "data:image/png;base64,iVBORw0KGgo="),
                (lit "image/png"), (lit "iVBORw0KGgo=").
      split; reflexivity.
    - left. exists (lit "Describe the chart").
      split; [discriminate|reflexivity]. }
  destruct (multimodal_translation
              (chatReplies []) openaiConfig None None None
              (lit "sk-test") (lit "https://api.openai.com/v1/")
              [imagePart (lit "image/png") (lit "iVBORw0KGgo=");
               textPart (lit "Describe the chart")]
              eq_refl eq_refl ltac:(discriminate) eq_refl ltac:(discriminate)
              Hshape)
    as (Hsent & _ & Hback).
  split; [exact Hsent|].
  apply (Hback (lit "image/png") (lit "iVBORw0KGgo=")).
  left. reflexivity.
Defined.

(** C3. With the provider [openai] and a missing or empty key or base
    URL the gateway throws the configuration error, and with a provider
    that is neither [gemini] nor [openai] it throws the unknown-provider
    error; in both cases it has done nothing before, no network call
    in particular. *)
Theorem callAI_fails_fast
    (w : World) (prompt : Prompt) (config : AIConfig)
    (systemInstruction mime : option jsstring) (schema : option Schema) :
  (provider config = openai ->
   truthyStr (apiKey config) = false \/ truthyStr (baseUrl config) = false ->
   callAI w prompt config systemInstruction mime schema
   = ([], inl (mkError
                 (lit "Missing API Key or Base URL for custom provider"))))
  /\ (provider config <> gemini -> provider config <> openai ->
      callAI w prompt config systemInstruction mime schema
      = ([], inl (mkError (lit "Unknown Provider")))).
Proof.
  split.
  - apply callAI_missing_configuration.
  - apply callAI_unknown_provider.
Qed.

Lemma callAI_fails_fast_witness :
  callAI (chatReplies []) (PromptString (lit "Hi"))
         (mkAIConfig openai (lit "gpt-4o") (Some [])
                     (Some (lit "https://api.openai.com/v1")))
         None None None
  = ([], inl (mkError
                (lit "Missing API Key or Base URL for custom provider")))
  /\ callAI (chatReplies []) (PromptString (lit "Hi"))
            (mkAIConfig (lit "claude") (lit "gpt-4o") None None)
            None None None
     = ([], inl (mkError (lit "Unknown Provider"))).
Proof.
  split.
  - apply (proj1 (callAI_fails_fast (chatReplies []) (PromptString (lit "Hi"))
                    (mkAIConfig openai (lit "gpt-4o") (Some [])
                                (Some (lit "https://api.openai.com/v1")))
                    None None None)).
    + reflexivity.
    + left. reflexivity.
  - apply (proj2 (callAI_fails_fast (chatReplies []) (PromptString (lit "Hi"))
                    (mkAIConfig (lit "claude") (lit "gpt-4o") None None)
                    None None None)); discriminate.
Defined.

(** C4. When the text the gateway returned, once its code fences are
    stripped, does not parse as JSON, [generateOutlines] logs the raw
    text and throws the fixed error that asks to try again: the error of
    the parser is not the one thrown, no value is returned, and the
    message thrown does not depend on the text. *)
Theorem generateOutlines_invalid_response
    (JSON_parse : jsstring -> JSError + JValue) (w : World)
    (topic customStyle : jsstring) (config : AIConfig)
    (t : list Event) (response : jsstring) (e : JSError) :
  topic <> [] ->
  callAI w (PromptString (outlinesPrompt topic customStyle)) config
         None (Some applicationJson) (schemaFor config outlinesSchema)
  = (t, inr (JStr response)) ->
  JSON_parse (stripCodeFence response) = inl e ->
  generateOutlines JSON_parse w topic customStyle config
  = (t ++ [ConsoleError (lit "Failed to parse JSON")
                        (LogValue (JStr response))],
     inl (mkError (lit "AI response was not valid JSON. Please try again."))).
Proof.
  intros Htopic Hcall Hparse.
  destruct topic as [|c topic]; [contradiction|].
  unfold generateOutlines. rewrite Hcall.
  unfold bind, tryCatch, asString, ret, lift. cbn. rewrite Hparse. cbn.
  reflexivity.
Qed.

Lemma generateOutlines_invalid_response_witness :
  generateOutlines JSON.parse (sdkReplies (lit "Sure! Here are 3 outlines:"))
                   (lit "Coffee shop guide") [] geminiConfig
  = (trace (callAI (sdkReplies (lit "Sure! Here are 3 outlines:"))
                   (PromptString (outlinesPrompt (lit "Coffee shop guide") []))
                   geminiConfig None (Some applicationJson)
                   (schemaFor geminiConfig outlinesSchema))
     ++ [ConsoleError (lit "Failed to parse JSON")
                      (LogValue (JStr (lit "Sure! Here are 3 outlines:")))],
     inl (mkError (lit "AI response was not valid JSON. Please try again."))).
Proof.
  apply (generateOutlines_invalid_response
           JSON.parse (sdkReplies (lit "Sure! Here are 3 outlines:"))
           (lit "Coffee shop guide") [] geminiConfig _
           (lit "Sure! Here are 3 outlines:") (mkError (lit "SyntaxError"))).
  - discriminate.
  - reflexivity.
  - reflexivity.
Defined.

(** C5, at a response with an indented bullet.  The response is not
    JSON, so the fallback runs.  The second line passes the filter, which
    looks at the trimmed line, but the marker is looked for at the start
    of the line as it is: the line is returned with its marker. *)
Theorem generateChapterDetails_indented_bullet :
  JSON.parse (stripCodeFence (lit "- intro" ++ nl ++ lit "  - body"))
  = inl (mkError (lit "SyntaxError"))
  /\ outcome
       (generateChapterDetails
          JSON.parse (sdkReplies (lit "- intro" ++ nl ++ lit "  - body"))
          (lit "Coffee shop guide") (lit "Market Analysis") [lit "Menu"]
          geminiConfig)
     = inr (Some (JArr [JStr (lit "intro"); JStr (lit "  - body")])).
Proof. split; reflexivity. Qed.

(** C6 as stated fails: a topic of one space is not rejected, the
    gateway is called and its answer is returned. *)
Lemma generateOutlines_blank_topic_counterexample :
  ~ (forall (w : World) (topic customStyle : jsstring) (config : AIConfig),
        forallb isSpace topic = true ->
        (exists e,
            outcome (generateOutlines JSON.parse w topic customStyle config)
            = inl e)
        /\ networkCalls
             (trace (generateOutlines JSON.parse w topic customStyle config))
           = []).
Proof.
  intros H.
  destruct (H (sdkReplies noOutlines) (lit " ") [] geminiConfig eq_refl)
    as [_ Hcalls].
  vm_compute in Hcalls. discriminate.
Qed.

(** C6, as the code has it.  The empty topic is rejected with an error
    before anything is done, so without a network call.  Any other
    topic, one of white space included, is not rejected: the gateway is
    called, and what [generateOutlines] does is what that call and the
    parsing of its answer make it do.  It throws the error of the
    gateway when the gateway throws; it returns the parsed value when
    the answer is a string that parses once stripped; and it throws its
    fixed error, after logging the answer, when the answer is not a
    string or does not parse. *)
Theorem generateOutlines_empty_topic
    (JSON_parse : jsstring -> JSError + JValue) (w : World)
    (topic customStyle : jsstring) (config : AIConfig) :
  generateOutlines JSON_parse w [] customStyle config
  = ([], inl (mkError (lit "Topic is required")))
  /\ (topic <> [] ->
      (forall t e,
          callAI w (PromptString (outlinesPrompt topic customStyle)) config
                 None (Some applicationJson) (schemaFor config outlinesSchema)
          = (t, inl e) ->
          generateOutlines JSON_parse w topic customStyle config
          = (t, inl e))
      /\ (forall t response v,
            callAI w (PromptString (outlinesPrompt topic customStyle)) config
                   None (Some applicationJson)
                   (schemaFor config outlinesSchema)
            = (t, inr (JStr response)) ->
            JSON_parse (stripCodeFence response) = inr v ->
            generateOutlines JSON_parse w topic customStyle config
            = (t, inr v))
      /\ (forall t answer,
            callAI w (PromptString (outlinesPrompt topic customStyle)) config
                   None (Some applicationJson)
                   (schemaFor config outlinesSchema)
            = (t, inr answer) ->
            (forall response,
                answer = JStr response ->
                exists e, JSON_parse (stripCodeFence response) = inl e) ->
            generateOutlines JSON_parse w topic customStyle config
            = (t ++ [ConsoleError (lit "Failed to parse JSON")
                                  (LogValue answer)],
               inl (mkError
                      (lit "AI response was not valid JSON. Please try again."))))).
Proof.
  split; [reflexivity|]. intros Htopic.
  destruct topic as [|c topic]; [contradiction|].
  unfold generateOutlines. split; [|split].
  - intros t e ->. reflexivity.
  - intros t response v -> Hparse.
    unfold bind, tryCatch, asString, ret, lift. cbn. rewrite Hparse. cbn.
    now rewrite !app_nil_r.
  - intros t answer -> Hbad.
    unfold bind, tryCatch, asString, ret, lift.
    destruct answer as [| | |response| |]; try reflexivity.
    destruct (Hbad response eq_refl) as [e Hparse].
    cbn. rewrite Hparse. reflexivity.
Qed.

Lemma generateOutlines_empty_topic_witness :
  generateOutlines JSON.parse (sdkReplies noOutlines) [] [] geminiConfig
  = ([], inl (mkError (lit "Topic is required")))
  /\ generateOutlines JSON.parse (sdkReplies noOutlines) (lit " ") []
                      geminiConfig
     = (trace (callAI (sdkReplies noOutlines)
                      (PromptString (outlinesPrompt (lit " ") []))
                      geminiConfig None (Some applicationJson)
                      (schemaFor geminiConfig outlinesSchema)),
        inr (JObj [(lit "outlines", JArr [])])).
Proof.
  destruct (generateOutlines_empty_topic
              JSON.parse (sdkReplies noOutlines) (lit " ") [] geminiConfig)
    as [Hempty Hother].
  split; [exact Hempty|].
  destruct (Hother ltac:(discriminate)) as (_ & Hparsed & _).
  apply (Hparsed _ noOutlines); reflexivity.
Defined.

(** C7. With a chart image that matches the data-URI pattern, the
    gateway is called with two parts, first the image with the mime type
    and the payload read from the URI, then the prompt text, which holds
    the instruction to analyse the image.  With a chart image that does
    not match, the gateway is called with the prompt text alone, and
    nothing is thrown for the image. *)
Theorem generateChapterContent_chart
    (w : World) (topic chapterTitle : jsstring) (points : list jsstring)
    (tone : jsstring) (config : AIConfig) (image : jsstring) :
  let promptText :=
    contentPromptText topic chapterTitle points tone (Some image) in
  (forall m d,
      matchDataUri image = Some (m, d) ->
      image = dataUri m d
      /\ generateChapterContent w topic chapterTitle points tone config
                                (Some image)
         = callAI w (PromptParts [imagePart m d; textPart promptText])
                  config None None None
      /\ includes (lit "Analyze the visual data in the image provided")
                  promptText = true)
  /\ (matchDataUri image = None ->
      generateChapterContent w topic chapterTitle points tone config
                             (Some image)
      = callAI w (PromptString promptText) config None None None).
Proof.
  intros promptText. subst promptText.
  destruct image as [|c image].
  - split; [intros m d H; discriminate|]. intros _. reflexivity.
  - split.
    + intros m d H. split; [apply (matchDataUri_sound _ _ _ H)|]. split.
      * unfold generateChapterContent. now rewrite H.
      * unfold contentPromptText. cbn [truthyStr].
        apply includes_app_r. reflexivity.
    + intros H. unfold generateChapterContent. now rewrite H.
Qed.

Lemma generateChapterContent_chart_witness :
  generateChapterContent
    (sdkReplies (lit "Sales rose.")) (lit "Coffee shop guide")
    (lit "Market Analysis") [lit "competitor pricing"; lit "demand trends"]
    (lit "Professional") geminiConfig
    (Some (lit "data:image/png;base64,iVBORw0KGgo="))
  = callAI (sdkReplies (lit "Sales rose."))
           (PromptParts
              [imagePart (lit "image/png") (lit "iVBORw0KGgo=");
               textPart
                 (contentPromptText
                    (lit "Coffee shop guide") (lit "Market Analysis")
                    [lit "competitor pricing"; lit "demand trends"]
                    (lit "Professional")
                    (Some (lit "data:image/png;base64,iVBORw0KGgo=")))])
           geminiConfig None None None
  /\ generateChapterContent
       (sdkReplies (lit "Sales rose.")) (lit "Coffee shop guide")
       (lit "Market Analysis") [lit "competitor pricing"; lit "demand trends"]
       (lit "Professional") geminiConfig (Some (lit "chart.png"))
     = callAI (sdkReplies (lit "Sales rose."))
              (PromptString
                 (contentPromptText
                    (lit "Coffee shop guide") (lit "Market Analysis")
                    [lit "competitor pricing"; lit "demand trends"]
                    (lit "Professional") (Some (lit "chart.png"))))
              geminiConfig None None None.
Proof.
  split.
  - apply (proj1 (generateChapterContent_chart
                    (sdkReplies (lit "Sales rose.")) (lit "Coffee shop guide")
                    (lit "Market Analysis")
                    [lit "competitor pricing"; lit "demand trends"]
                    (lit "Professional") geminiConfig
                    (lit "data:image/png;base64,iVBORw0KGgo="))
                 (lit "image/png") (lit "iVBORw0KGgo=")).
    reflexivity.
  - apply (proj2 (generateChapterContent_chart
                    (sdkReplies (lit "Sales rose.")) (lit "Coffee shop guide")
                    (lit "Market Analysis")
                    [lit "competitor pricing"; lit "demand trends"]
                    (lit "Professional") geminiConfig (lit "chart.png"))).
    reflexivity.
Defined.

(** C8. Stripping the code fences is idempotent; and a text in a
    [json] fence strips to what the text itself strips to, so the two
    parse to the same value. *)
Theorem stripCodeFence_idempotent :
  (forall s : jsstring, stripCodeFence (stripCodeFence s) = stripCodeFence s)
  /\ (forall (JSON_parse : jsstring -> JSError + JValue) (j : jsstring),
        JSON_parse (stripCodeFence (fenceWrap j))
        = JSON_parse (stripCodeFence j)).
Proof.
  split.
  - apply stripCodeFence_idem.
  - intros JSON_parse j. now rewrite stripCodeFence_fenceWrap.
Qed.

(** C9 as stated fails: a response that is an object with an empty
    [outlines] array is returned as it parses, with no outline in it. *)
Lemma generateOutlines_shape_counterexample :
  ~ (forall (w : World) (topic customStyle : jsstring) (config : AIConfig)
            (v : JValue),
        outcome (generateOutlines JSON.parse w topic customStyle config)
        = inr v ->
        outlinesContract v = true).
Proof.
  intros H.
  specialize (H (sdkReplies noOutlines) (lit "Coffee shop guide") []
                geminiConfig (JObj [(lit "outlines", JArr [])]) eq_refl).
  vm_compute in H. discriminate.
Qed.

(** C9, as the code has it.  What [generateOutlines] returns on success
    is the value the text of the gateway parses to once its code fences
    are stripped, whatever its shape: nothing is counted or checked. *)
Theorem generateOutlines_returns_parsed
    (JSON_parse : jsstring -> JSError + JValue) (w : World)
    (topic customStyle : jsstring) (config : AIConfig) (v : JValue) :
  outcome (generateOutlines JSON_parse w topic customStyle config) = inr v ->
  exists response,
    outcome (callAI w (PromptString (outlinesPrompt topic customStyle)) config
                    None (Some applicationJson)
                    (schemaFor config outlinesSchema))
    = inr (JStr response)
    /\ JSON_parse (stripCodeFence response) = inr v.
Proof.
  unfold generateOutlines. destruct topic as [|c topic]; [discriminate|].
  destruct (callAI _ _ _ _ _ _) as [t [e|x]]; cbn; [discriminate|].
  destruct x as [| | |s| |]; cbn; try discriminate.
  destruct (JSON_parse (stripCodeFence s)) as [e|v'] eqn:Hparse; cbn;
    [discriminate|].
  intros Hv. inversion Hv; subst. now exists s.
Qed.

Lemma generateOutlines_returns_parsed_witness :
  exists response,
    outcome (callAI (sdkReplies (fenceWrap noOutlines))
                    (PromptString (outlinesPrompt (lit "Coffee shop guide") []))
                    geminiConfig None (Some applicationJson)
                    (schemaFor geminiConfig outlinesSchema))
    = inr (JStr response)
    /\ JSON.parse (stripCodeFence response)
       = inr (JObj [(lit "outlines", JArr [])]).
Proof.
  apply (generateOutlines_returns_parsed
           JSON.parse (sdkReplies (fenceWrap noOutlines))
           (lit "Coffee shop guide") [] geminiConfig
           (JObj [(lit "outlines", JArr [])])).
  reflexivity.
Defined.



(** * Further properties *)

(** ** The gateway, beyond the claims *)

Module GatewayRun.

(** Enters the OpenAI branch of [callAI] for a key and a base URL known
    to be non-empty. *)
Ltac openai_branch Hp Hk Hb :=
  unfold callAI; rewrite Hp, Hk, Hb;
  change (streq openai gemini) with false;
  change (streq openai openai) with true; cbv iota.

Ltac run_monad :=
  unfold tryCatch, bind, fetch, sdkGenerateContent, lift, throw, ret,
    consoleError, emit, trace, outcome.

Lemma networkCalls_app (a b : list Event) :
  networkCalls (a ++ b) = networkCalls a ++ networkCalls b.
Proof. apply filter_app. Qed.

(** The call of the SDK on the Gemini path. *)
Lemma callAI_gemini_trace (w : World) (prompt : Prompt) (config : AIConfig)
    (systemInstruction mime : option jsstring) (schema : option Schema) :
  provider config = gemini ->
  trace (callAI w prompt config systemInstruction mime schema)
  = [SdkGenerateContent
       (mkGenerateOptions
          (modelName config)
          (match prompt with
           | PromptString s => ContentsString s
           | PromptParts parts => ContentsParts parts
           end)
          (mkGenerateConfig
             systemInstruction
             (match mime with Some m => m | None => textPlain end)
             schema))].
Proof.
  intros Hp. unfold callAI. rewrite Hp.
  change (streq gemini gemini) with true. cbv iota. run_monad.
  destruct (sdkAnswer w _); reflexivity.
Qed.

(** The request of the OpenAI path, in full. *)
Lemma callAI_openai_request_exact (w : World) (prompt : Prompt)
    (config : AIConfig) (systemInstruction mime : option jsstring)
    (schema : option Schema) (key base : jsstring) :
  provider config = openai ->
  apiKey config = Some key -> key <> [] ->
  baseUrl config = Some base -> base <> [] ->
  networkCalls (trace (callAI w prompt config systemInstruction mime schema))
  = [HttpFetch
       (if negb (includes chatCompletionsPath base)
        then removeTrailingSlash base ++ chatCompletionsPath else base)
       (mkRequestInit
          (lit "POST")
          [(lit "Content-Type", lit "application/json");
           (lit "Authorization", lit "Bearer " ++ key)]
          (mkChatBody
             (modelName config)
             ((match systemInstruction with
               | Some ((_ :: _) as instr) =>
                   [mkMessage (lit "system") (ContentString instr)]
               | _ => []
               end)
              ++ [mkMessage (lit "user")
                    (match prompt with
                     | PromptParts parts => ContentArray (toOpenAIContent parts)
                     | PromptString s =>
                         ContentString
                           (if streq (match mime with
                                      | Some m => m
                                      | None => textPlain
                                      end) applicationJson
                            then s ++ nl ++ nl
                                 ++ lit "IMPORTANT: Respond with valid JSON only. Do not use Markdown code blocks."
                            else s)
                     end)])
             (lit "0.7")
             (if streq (match mime with Some m => m | None => textPlain end)
                       applicationJson
              then Some (lit "json_object") else None)))].
Proof.
  intros Hp Hk Hkey Hb Hbase.
  destruct key as [|k0 key]; [contradiction|].
  destruct base as [|b0 base]; [contradiction|].
  openai_branch Hp Hk Hb. run_monad.
  destruct (fetchAnswer w _ _) as [e|res]; [reflexivity|].
  destruct (ok res); cbn [negb].
  - destruct (resJson res) as [e|d]; [reflexivity|].
    destruct (getProp d _) as [e|c]; reflexivity.
  - destruct (resText res) as [e|t]; reflexivity.
Qed.

(** Whether JSON is asked for, as the code decides it. *)
Lemma json_mode_yes :
  streq (match Some applicationJson with Some m => m | None => textPlain end)
        applicationJson = true.
Proof. reflexivity. Qed.

Lemma json_mode_no (mime : option jsstring) :
  mime <> Some applicationJson ->
  streq (match mime with Some m => m | None => textPlain end)
        applicationJson = false.
Proof.
  intros H. destruct mime as [m|]; [|reflexivity].
  apply streq_neq. congruence.
Qed.

End GatewayRun.
Import GatewayRun.

(** X1. One invocation of the gateway performs at most one network
    call, whatever the configuration and whatever the outside answers:
    there is no retry. *)
Theorem callAI_at_most_one_call
    (w : World) (prompt : Prompt) (config : AIConfig)
    (systemInstruction mime : option jsstring) (schema : option Schema) :
  (List.length
     (networkCalls
        (trace (callAI w prompt config systemInstruction mime schema)))
   <= 1)%nat.
Proof.
  unfold callAI.
  destruct (streq (provider config) gemini).
  { run_monad. destruct (sdkAnswer w _) as [e|t]; cbn; lia. }
  destruct (streq (provider config) openai); [|cbn; lia].
  destruct (apiKey config) as [[|k0 key]|]; try (cbn; lia).
  destruct (baseUrl config) as [[|b0 base]|]; try (cbn; lia).
  run_monad.
  destruct (fetchAnswer w _ _) as [e|res]; [cbn; lia|].
  destruct (ok res); cbn [negb].
  - destruct (resJson res) as [e|d]; [cbn; lia|].
    destruct (getProp d _) as [e|c]; cbn; lia.
  - destruct (resText res) as [e|t]; cbn; lia.
Qed.


(** X2. On the OpenAI path, once the request is sent, every failure
    reaches the caller as one error whose message is [External AI
    Error: ] followed by the message of the cause, and the cause is
    logged once: a network failure, an HTTP status that is not a
    success, and a body that is not the expected JSON alike. *)
Theorem callAI_openai_errors_wrapped
    (w : World) (prompt : Prompt) (config : AIConfig)
    (systemInstruction mime : option jsstring) (schema : option Schema)
    (key base : jsstring) (e : JSError) :
  provider config = openai ->
  apiKey config = Some key -> key <> [] ->
  baseUrl config = Some base -> base <> [] ->
  outcome (callAI w prompt config systemInstruction mime schema) = inl e ->
  exists cause url init,
    message e = lit "External AI Error: " ++ message cause
    /\ trace (callAI w prompt config systemInstruction mime schema)
       = [HttpFetch url init;
          ConsoleError (lit "External API Call Failed") (LogError cause)].
Proof.
  intros Hp Hk Hkey Hb Hbase.
  destruct key as [|k0 key]; [contradiction|].
  destruct base as [|b0 base]; [contradiction|].
  openai_branch Hp Hk Hb. run_monad.
  destruct (fetchAnswer w _ _) as [c|res]; cbn [negb fst snd].
  { intros H. injection H as <-. eexists c, _, _. split; reflexivity. }
  destruct (ok res); cbn [negb fst snd].
  - destruct (resJson res) as [c|d]; cbn [fst snd].
    { intros H. injection H as <-. eexists c, _, _. split; reflexivity. }
    destruct (getProp d _) as [c|ch]; cbn [fst snd].
    { intros H. injection H as <-. eexists c, _, _. split; reflexivity. }
    discriminate.
  - destruct (resText res) as [c|t]; cbn [fst snd].
    { intros H. injection H as <-. eexists c, _, _. split; reflexivity. }
    intros H. injection H as <-.
    exists (mkError (lit "API Error (" ++ showN (status res)
                     ++ lit "): " ++ t)).
    eexists _, _. split; reflexivity.
Qed.

Lemma callAI_openai_errors_wrapped_witness :
  exists cause url init,
    lit "External AI Error: Failed to fetch"
    = lit "External AI Error: " ++ message cause
    /\ trace (callAI (sdkReplies []) (PromptString (lit "Hi")) openaiConfig
                     None None None)
       = [HttpFetch url init;
          ConsoleError (lit "External API Call Failed") (LogError cause)].
Proof.
  apply (callAI_openai_errors_wrapped
           (sdkReplies []) (PromptString (lit "Hi")) openaiConfig
           None None None (lit "sk-test") (lit "https://api.openai.com/v1/")
           (mkError (lit "External AI Error: Failed to fetch")));
    try reflexivity; discriminate.
Defined.

(** X3. When the endpoint answers with a status that is not a success,
    the error thrown carries the status and the body of the answer:
    [External AI Error: API Error (<status>): <body>]. *)
Theorem callAI_openai_http_error
    (w : World) (prompt : Prompt) (config : AIConfig)
    (systemInstruction mime : option jsstring) (schema : option Schema)
    (key base : jsstring) (res : Response) (errText : jsstring) :
  provider config = openai ->
  apiKey config = Some key -> key <> [] ->
  baseUrl config = Some base -> base <> [] ->
  (forall url init, fetchAnswer w url init = inr res) ->
  ok res = false ->
  resText res = inr errText ->
  outcome (callAI w prompt config systemInstruction mime schema)
  = inl (mkError (lit "External AI Error: API Error ("
                  ++ showN (status res) ++ lit "): " ++ errText)).
Proof.
  intros Hp Hk Hkey Hb Hbase Hfetch Hok Htext.
  destruct key as [|k0 key]; [contradiction|].
  destruct base as [|b0 base]; [contradiction|].
  openai_branch Hp Hk Hb. run_monad.
  rewrite Hfetch, Hok. cbn [negb]. rewrite Htext. reflexivity.
Qed.

Lemma callAI_openai_http_error_witness :
  outcome (callAI (endpointAnswers unauthorized) (PromptString (lit "Hi"))
                  openaiConfig None None None)
  = inl (mkError (lit "External AI Error: API Error (401): Unauthorized")).
Proof.
  apply (callAI_openai_http_error
           (endpointAnswers unauthorized) (PromptString (lit "Hi"))
           openaiConfig None None None (lit "sk-test")
           (lit "https://api.openai.com/v1/") unauthorized
           (lit "Unauthorized"));
    try reflexivity; discriminate.
Defined.

(** X4. When the endpoint answers with a success whose body is an
    object, the gateway returns the content of the message of the first
    choice when it is a string; the other choices are not looked at. *)
Theorem callAI_openai_first_choice
    (w : World) (prompt : Prompt) (config : AIConfig)
    (systemInstruction mime : option jsstring) (schema : option Schema)
    (key base : jsstring) (res : Response)
    (members choice msg : list (jsstring * JValue)) (others : list JValue)
    (s : jsstring) :
  provider config = openai ->
  apiKey config = Some key -> key <> [] ->
  baseUrl config = Some base -> base <> [] ->
  (forall url init, fetchAnswer w url init = inr res) ->
  ok res = true ->
  resJson res = inr (JObj members) ->
  lookup (lit "choices") members = Some (JArr (JObj choice :: others)) ->
  lookup (lit "message") choice = Some (JObj msg) ->
  lookup (lit "content") msg = Some (JStr s) ->
  outcome (callAI w prompt config systemInstruction mime schema)
  = inr (JStr s).
Proof.
  intros Hp Hk Hkey Hb Hbase Hfetch Hok Hjson Hch Hmsg Hcontent.
  destruct key as [|k0 key]; [contradiction|].
  destruct base as [|b0 base]; [contradiction|].
  openai_branch Hp Hk Hb. run_monad.
  rewrite Hfetch, Hok. cbn [negb]. rewrite Hjson.
  unfold getProp. rewrite Hch.
  unfold optIndex0, optProp. rewrite Hmsg, Hcontent.
  destruct s; reflexivity.
Qed.

Lemma callAI_openai_first_choice_witness :
  outcome (callAI (endpointAnswers (completion (JStr (lit "Hello"))))
                  (PromptString (lit "Hi")) openaiConfig None None None)
  = inr (JStr (lit "Hello")).
Proof.
  apply (callAI_openai_first_choice
           (endpointAnswers (completion (JStr (lit "Hello"))))
           (PromptString (lit "Hi")) openaiConfig None None None
           (lit "sk-test") (lit "https://api.openai.com/v1/")
           (completion (JStr (lit "Hello")))
           [(lit "choices",
             JArr [JObj [(lit "message",
                          JObj [(lit "content", JStr (lit "Hello"))])]])]
           [(lit "message", JObj [(lit "content", JStr (lit "Hello"))])]
           [(lit "content", JStr (lit "Hello"))] []);
    try reflexivity; discriminate.
Defined.

(** X5. A success whose body is an object without a usable first
    message is no error: without [choices], with a [choices] that is
    [null] or an empty array, or with a first choice without a
    [message], the gateway returns the empty string. *)
Theorem callAI_openai_missing_content
    (w : World) (prompt : Prompt) (config : AIConfig)
    (systemInstruction mime : option jsstring) (schema : option Schema)
    (key base : jsstring) (res : Response)
    (members : list (jsstring * JValue)) :
  provider config = openai ->
  apiKey config = Some key -> key <> [] ->
  baseUrl config = Some base -> base <> [] ->
  (forall url init, fetchAnswer w url init = inr res) ->
  ok res = true ->
  resJson res = inr (JObj members) ->
  lookup (lit "choices") members = None
  \/ lookup (lit "choices") members = Some JNull
  \/ lookup (lit "choices") members = Some (JArr [])
  \/ (exists choice others,
         lookup (lit "choices") members
         = Some (JArr (JObj choice :: others))
         /\ lookup (lit "message") choice = None) ->
  outcome (callAI w prompt config systemInstruction mime schema)
  = inr (JStr []).
Proof.
  intros Hp Hk Hkey Hb Hbase Hfetch Hok Hjson Hcases.
  destruct key as [|k0 key]; [contradiction|].
  destruct base as [|b0 base]; [contradiction|].
  openai_branch Hp Hk Hb. run_monad.
  rewrite Hfetch, Hok. cbn [negb]. rewrite Hjson.
  unfold getProp, optIndex0, optProp.
  destruct Hcases as [H|[H|[H|(choice & others & H & Hm)]]]; rewrite H;
    try rewrite Hm; reflexivity.
Qed.

Lemma callAI_openai_missing_content_witness :
  outcome (callAI (endpointAnswers emptyCompletion) (PromptString (lit "Hi"))
                  openaiConfig None None None)
  = inr (JStr []).
Proof.
  apply (callAI_openai_missing_content
           (endpointAnswers emptyCompletion) (PromptString (lit "Hi"))
           openaiConfig None None None (lit "sk-test")
           (lit "https://api.openai.com/v1/") emptyCompletion []);
    try reflexivity; try discriminate.
  left. reflexivity.
Defined.

(** X6. What the gateway returns is the empty string or a truthy
    value: it is never [null], never [false], and never a number that
    is zero as a double, because a falsy text or content is replaced by
    the empty string. *)
Theorem callAI_returns_truthy_or_empty
    (w : World) (prompt : Prompt) (config : AIConfig)
    (systemInstruction mime : option jsstring) (schema : option Schema)
    (v : JValue) :
  outcome (callAI w prompt config systemInstruction mime schema) = inr v ->
  (v = JStr [] \/ truthy v = true)
  /\ v <> JNull
  /\ v <> JBool false
  /\ (forall literal, v = JNum literal -> numberIsZero literal = false).
Proof.
  intros H.
  assert (Hv : v = JStr [] \/ truthy v = true).
  { assert (Hor : forall x, orEmptyString x = JStr []
                            \/ truthy (orEmptyString x) = true).
    { intros [x|]; cbn [orEmptyString]; [|now left].
      destruct (truthy x) eqn:E; [now right|now left]. }
    revert H. unfold callAI.
    destruct (streq (provider config) gemini).
    { run_monad. destruct (sdkAnswer w _) as [e|[[|c t]|]]; cbn;
        intros H; inversion H; auto. }
    destruct (streq (provider config) openai); [|discriminate].
    destruct (apiKey config) as [[|k0 key]|]; try discriminate.
    destruct (baseUrl config) as [[|b0 base]|]; try discriminate.
    run_monad.
    destruct (fetchAnswer w _ _) as [e|res]; [discriminate|].
    destruct (ok res); cbn [negb].
    - destruct (resJson res) as [e|d]; [discriminate|].
      destruct (getProp d _) as [e|c]; [discriminate|].
      cbn [fst snd]. intros H. inversion H. apply Hor.
    - destruct (resText res) as [e|t]; discriminate. }
  split; [exact Hv|].
  destruct Hv as [->|Ht].
  - repeat split; try discriminate.
  - repeat split.
    + intros ->. discriminate.
    + intros ->. discriminate.
    + intros literal ->. cbn [truthy] in Ht. now apply negb_true_iff in Ht.
Qed.

Lemma callAI_returns_truthy_or_empty_witness :
  outcome (callAI (endpointAnswers (completion (JNum (lit "1e-400"))))
                  (PromptString (lit "Hi")) openaiConfig None None None)
  = inr (JStr [])
  /\ (JNum (lit "42") = JStr [] \/ truthy (JNum (lit "42")) = true).
Proof.
  split; [reflexivity|].
  apply (callAI_returns_truthy_or_empty
           (endpointAnswers (completion (JNum (lit "42"))))
           (PromptString (lit "Hi")) openaiConfig None None None).
  reflexivity.
Defined.

(** X7. The request of the OpenAI path: the key is carried as a bearer
    token, the model name is passed as it is, the temperature is 0.7,
    the JSON response format is asked for exactly when JSON is the
    response type, and the user message comes last, after the system
    message when there is a non-empty system instruction. *)
Theorem callAI_openai_request_shape
    (w : World) (prompt : Prompt) (config : AIConfig)
    (systemInstruction mime : option jsstring) (schema : option Schema)
    (key base : jsstring) :
  provider config = openai ->
  apiKey config = Some key -> key <> [] ->
  baseUrl config = Some base -> base <> [] ->
  exists url init,
    networkCalls
      (trace (callAI w prompt config systemInstruction mime schema))
    = [HttpFetch url init]
    /\ headers init = [(lit "Content-Type", lit "application/json");
                       (lit "Authorization", lit "Bearer " ++ key)]
    /\ model (body init) = modelName config
    /\ temperature (body init) = lit "0.7"
    /\ (mime = Some applicationJson ->
        response_format (body init) = Some (lit "json_object"))
    /\ (mime <> Some applicationJson -> response_format (body init) = None)
    /\ exists userContent,
        (truthyStr systemInstruction = false ->
         messages (body init) = [mkMessage (lit "user") userContent])
        /\ (forall instr,
              systemInstruction = Some instr -> instr <> [] ->
              messages (body init)
              = [mkMessage (lit "system") (ContentString instr);
                 mkMessage (lit "user") userContent]).
Proof.
  intros Hp Hk Hkey Hb Hbase.
  eexists _, _. split.
  { apply (callAI_openai_request_exact w prompt config systemInstruction mime
             schema key base Hp Hk Hkey Hb Hbase). }
  cbn [headers model temperature response_format messages body].
  repeat split.
  - intros ->. reflexivity.
  - intros Hm. now rewrite json_mode_no.
  - eexists. split.
    + destruct systemInstruction as [[|c i]|]; try discriminate; reflexivity.
    + intros instr -> Hi. destruct instr; [contradiction|reflexivity].
Qed.

Lemma callAI_openai_request_shape_witness :
  exists url init,
    networkCalls
      (trace (callAI (chatReplies []) (PromptString (lit "Hi")) openaiConfig
                     (Some (lit "Be brief.")) (Some applicationJson) None))
    = [HttpFetch url init]
    /\ response_format (body init) = Some (lit "json_object")
    /\ exists userContent,
        messages (body init)
        = [mkMessage (lit "system") (ContentString (lit "Be brief."));
           mkMessage (lit "user") userContent].
Proof.
  destruct (callAI_openai_request_shape
              (chatReplies []) (PromptString (lit "Hi")) openaiConfig
              (Some (lit "Be brief.")) (Some applicationJson) None
              (lit "sk-test") (lit "https://api.openai.com/v1/")
              eq_refl eq_refl ltac:(discriminate) eq_refl
              ltac:(discriminate))
    as (url & init & Hcalls & _ & _ & _ & Hjson & _ & userContent & _ & Hsys).
  exists url, init. split; [exact Hcalls|]. split; [exact (Hjson eq_refl)|].
  exists userContent. apply (Hsys (lit "Be brief.") eq_refl). discriminate.
Defined.

(** X8. A string prompt reaches the endpoint as the content of the user
    message: as it is when plain text is the response type, and followed
    by the instruction to answer in JSON without code blocks when JSON
    is. *)
Theorem callAI_openai_string_prompt
    (w : World) (s : jsstring) (config : AIConfig)
    (systemInstruction mime : option jsstring) (schema : option Schema)
    (key base : jsstring) :
  provider config = openai ->
  apiKey config = Some key -> key <> [] ->
  baseUrl config = Some base -> base <> [] ->
  (mime <> Some applicationJson ->
   sentUserContent
     (trace (callAI w (PromptString s) config systemInstruction mime schema))
   = [ContentString s])
  /\ (mime = Some applicationJson ->
      exists sent,
        sentUserContent
          (trace (callAI w (PromptString s) config systemInstruction mime
                         schema))
        = [ContentString sent]
        /\ startsWith s sent = true
        /\ includes (lit "Respond with valid JSON only") sent = true).
Proof.
  intros Hp Hk Hkey Hb Hbase.
  pose proof (callAI_openai_request_exact w (PromptString s) config
                systemInstruction mime schema key base Hp Hk Hkey Hb Hbase)
    as Hcalls.
  split.
  - intros Hm. rewrite sentUserContent_networkCalls, Hcalls.
    rewrite json_mode_no by assumption.
    destruct systemInstruction as [[|c i]|]; reflexivity.
  - intros ->. eexists. split; [|split].
    + rewrite sentUserContent_networkCalls, Hcalls.
      destruct systemInstruction as [[|c i]|]; reflexivity.
    + cbv iota. apply startsWith_app.
    + cbv iota. apply includes_app_r. reflexivity.
Qed.

Lemma callAI_openai_string_prompt_witness :
  sentUserContent
    (trace (callAI (chatReplies []) (PromptString (lit "Hi")) openaiConfig
                   None None None))
  = [ContentString (lit "Hi")]
  /\ exists sent,
      sentUserContent
        (trace (callAI (chatReplies []) (PromptString (lit "Hi")) openaiConfig
                       None (Some applicationJson) None))
      = [ContentString sent]
      /\ startsWith (lit "Hi") sent = true
      /\ includes (lit "Respond with valid JSON only") sent = true.
Proof.
  split.
  - apply (proj1 (callAI_openai_string_prompt
                    (chatReplies []) (lit "Hi") openaiConfig None None None
                    (lit "sk-test") (lit "https://api.openai.com/v1/")
                    eq_refl eq_refl ltac:(discriminate) eq_refl
                    ltac:(discriminate))).
    discriminate.
  - apply (proj2 (callAI_openai_string_prompt
                    (chatReplies []) (lit "Hi") openaiConfig None
                    (Some applicationJson) None
                    (lit "sk-test") (lit "https://api.openai.com/v1/")
                    eq_refl eq_refl ltac:(discriminate) eq_refl
                    ltac:(discriminate))).
    reflexivity.
Defined.

(** X9. [validateConnection] performs the network calls of one gateway
    call and no other; it returns [true] exactly when that call
    succeeds, and otherwise throws the very error of the gateway, after
    logging it. *)
Theorem validateConnection_probe (w : World) (config : AIConfig) :
  networkCalls (trace (validateConnection w config))
  = networkCalls
      (trace (callAI w (PromptString (lit "Hi")) config None None None))
  /\ (forall v,
        outcome (callAI w (PromptString (lit "Hi")) config None None None)
        = inr v ->
        validateConnection w config
        = (trace (callAI w (PromptString (lit "Hi")) config None None None),
           inr true))
  /\ (forall e,
        outcome (callAI w (PromptString (lit "Hi")) config None None None)
        = inl e ->
        validateConnection w config
        = (trace (callAI w (PromptString (lit "Hi")) config None None None)
           ++ [ConsoleError (lit "Connection Validation Failed")
                            (LogError e)],
           inl e)).
Proof.
  unfold validateConnection.
  destruct (callAI w (PromptString (lit "Hi")) config None None None)
    as [t [e|v]]; run_monad; cbn [fst snd].
  - split; [|split].
    + rewrite networkCalls_app. cbn. now rewrite app_nil_r.
    + discriminate.
    + intros e' H. injection H as <-. reflexivity.
  - split; [|split].
    + now rewrite app_nil_r.
    + intros v' _. now rewrite app_nil_r.
    + discriminate.
Qed.

Lemma validateConnection_probe_witness :
  validateConnection (chatReplies (lit "Hello")) openaiConfig
  = (trace (callAI (chatReplies (lit "Hello")) (PromptString (lit "Hi"))
                   openaiConfig None None None),
     inr true)
  /\ validateConnection (sdkReplies []) openaiConfig
     = (trace (callAI (sdkReplies []) (PromptString (lit "Hi")) openaiConfig
                      None None None)
        ++ [ConsoleError
              (lit "Connection Validation Failed")
              (LogError
                 (mkError (lit "External AI Error: Failed to fetch")))],
        inl (mkError (lit "External AI Error: Failed to fetch"))).
Proof.
  split.
  - destruct (validateConnection_probe (chatReplies (lit "Hello")) openaiConfig)
      as (_ & Hok & _).
    apply (Hok (JStr (lit "Hello"))). reflexivity.
  - destruct (validateConnection_probe (sdkReplies []) openaiConfig)
      as (_ & _ & Herr).
    apply Herr. reflexivity.
Defined.

(** ** The services, beyond the claims *)

Module ServiceRun.

Ltac run_service :=
  unfold asString; run_monad; cbv beta iota; cbn [fst snd].






End ServiceRun.
Import ServiceRun.






(** X12. Given a string by the gateway, [generateChapterDetails] never
    throws and adds no event, whether the string parses or not. *)
Theorem generateChapterDetails_never_throws
    (JSON_parse : jsstring -> JSError + JValue) (w : World)
    (topic chapterTitle : jsstring) (context : list jsstring)
    (config : AIConfig) (t : list Event) (response : jsstring) :
  callAI w (PromptString (detailsPrompt topic chapterTitle context)) config
         None (Some applicationJson) (schemaFor config detailsSchema)
  = (t, inr (JStr response)) ->
  exists result,
    generateChapterDetails JSON_parse w topic chapterTitle context config
    = (t, inr result).
Proof.
  intros H. unfold generateChapterDetails. rewrite H. run_service.
  destruct (JSON_parse (stripCodeFence response)) as [e|d]; cbv beta iota;
    cbn [fst snd]; rewrite ?app_nil_r.
  - eexists. reflexivity.
  - destruct d as [| | | | |ms]; cbn [getProp fst snd]; rewrite ?app_nil_r;
      eexists; reflexivity.
Qed.

Lemma generateChapterDetails_never_throws_witness :
  exists result,
    generateChapterDetails JSON.parse (sdkReplies (lit "no plan, sorry"))
                           (lit "Coffee shop guide") (lit "Market Analysis")
                           [lit "Menu"] geminiConfig
    = (trace (callAI (sdkReplies (lit "no plan, sorry"))
                     (PromptString (detailsPrompt (lit "Coffee shop guide")
                                                  (lit "Market Analysis")
                                                  [lit "Menu"]))
                     geminiConfig None (Some applicationJson)
                     (schemaFor geminiConfig detailsSchema)),
       inr result).
Proof.
  apply (generateChapterDetails_never_throws
           JSON.parse (sdkReplies (lit "no plan, sorry"))
           (lit "Coffee shop guide") (lit "Market Analysis") [lit "Menu"]
           geminiConfig _ (lit "no plan, sorry")).
  reflexivity.
Defined.

(** X13. A response that parses to [null] takes the fallback as well:
    reading [details] of [null] throws inside the [try], so the bullet
    lines of the raw text are returned. *)
Theorem generateChapterDetails_null_takes_fallback
    (JSON_parse : jsstring -> JSError + JValue) (w : World)
    (topic chapterTitle : jsstring) (context : list jsstring)
    (config : AIConfig) (t : list Event) (response : jsstring) :
  callAI w (PromptString (detailsPrompt topic chapterTitle context)) config
         None (Some applicationJson) (schemaFor config detailsSchema)
  = (t, inr (JStr response)) ->
  JSON_parse (stripCodeFence response) = inr JNull ->
  generateChapterDetails JSON_parse w topic chapterTitle context config
  = (t, inr (Some (JArr (map JStr
                           (map removeLeadingMarker
                                (filter isBulletLine
                                        (splitLines response))))))).
Proof.
  intros H Hparse. unfold generateChapterDetails. rewrite H. run_service.
  rewrite Hparse. cbv beta iota. cbn [getProp fst snd].
  now rewrite !app_nil_r.
Qed.

Lemma generateChapterDetails_null_takes_fallback_witness :
  outcome (generateChapterDetails JSON.parse (sdkReplies (lit "null"))
                                  (lit "Coffee shop guide")
                                  (lit "Market Analysis") [lit "Menu"]
                                  geminiConfig)
  = inr (Some (JArr [])).
Proof.
  rewrite (generateChapterDetails_null_takes_fallback
             JSON.parse (sdkReplies (lit "null")) (lit "Coffee shop guide")
             (lit "Market Analysis") [lit "Menu"] geminiConfig _ (lit "null")
             eq_refl eq_refl).
  reflexivity.
Defined.

(** X14. When the response parses to an object with a [details]
    member, that member is returned as it is, whatever it is: its being
    an array of strings is not checked. *)
Theorem generateChapterDetails_returns_details
    (JSON_parse : jsstring -> JSError + JValue) (w : World)
    (topic chapterTitle : jsstring) (context : list jsstring)
    (config : AIConfig) (t : list Event) (response : jsstring)
    (members : list (jsstring * JValue)) (details : JValue) :
  callAI w (PromptString (detailsPrompt topic chapterTitle context)) config
         None (Some applicationJson) (schemaFor config detailsSchema)
  = (t, inr (JStr response)) ->
  JSON_parse (stripCodeFence response) = inr (JObj members) ->
  lookup (lit "details") members = Some details ->
  generateChapterDetails JSON_parse w topic chapterTitle context config
  = (t, inr (Some details)).
Proof.
  intros H Hparse Hd. unfold generateChapterDetails. rewrite H. run_service.
  rewrite Hparse. cbv beta iota. unfold getProp. rewrite Hd. cbn [fst snd].
  now rewrite !app_nil_r.
Qed.

Lemma generateChapterDetails_returns_details_witness :
  outcome (generateChapterDetails JSON.parse (sdkReplies oneDetail)
                                  (lit "Coffee shop guide")
                                  (lit "Market Analysis") [lit "Menu"]
                                  geminiConfig)
  = inr (Some (JArr [JStr (lit "a")])).
Proof.
  rewrite (generateChapterDetails_returns_details
             JSON.parse (sdkReplies oneDetail) (lit "Coffee shop guide")
             (lit "Market Analysis") [lit "Menu"] geminiConfig _ oneDetail
             [(lit "details", JArr [JStr (lit "a")])]
             (JArr [JStr (lit "a")]) eq_refl eq_refl eq_refl).
  reflexivity.
Defined.

(** X15. When the gateway returns a value that is not a string (an
    endpoint whose first content is a number, say), the two JSON
    services part ways: [generateOutlines] throws its fixed error, after
    logging the value, and [generateChapterDetails] throws, its fallback
    failing on the value as its parsing did. *)
Theorem json_services_on_non_string
    (JSON_parse : jsstring -> JSError + JValue) (w : World)
    (topic customStyle chapterTitle : jsstring) (context : list jsstring)
    (config : AIConfig) (t : list Event) (v : JValue) :
  (forall s, v <> JStr s) ->
  (topic <> [] ->
   callAI w (PromptString (outlinesPrompt topic customStyle)) config
          None (Some applicationJson) (schemaFor config outlinesSchema)
   = (t, inr v) ->
   generateOutlines JSON_parse w topic customStyle config
   = (t ++ [ConsoleError (lit "Failed to parse JSON") (LogValue v)],
      inl (mkError (lit "AI response was not valid JSON. Please try again."))))
  /\ (callAI w (PromptString (detailsPrompt topic chapterTitle context))
             config None (Some applicationJson)
             (schemaFor config detailsSchema)
      = (t, inr v) ->
      exists e,
        generateChapterDetails JSON_parse w topic chapterTitle context config
        = (t, inl e)).
Proof.
  intros Hv. split.
  - intros Ht H. destruct topic as [|c topic]; [contradiction|].
    unfold generateOutlines. rewrite H.
    destruct v as [| | |s| |]; try (now run_service).
    exfalso. now apply (Hv s).
  - intros H. unfold generateChapterDetails. rewrite H.
    destruct v as [| | |s| |];
      try (run_service; rewrite ?app_nil_r; eexists; reflexivity).
    exfalso. now apply (Hv s).
Qed.

Lemma json_services_on_non_string_witness :
  exists e,
    generateChapterDetails
      JSON.parse (endpointAnswers (completion (JNum (lit "42"))))
      (lit "Coffee shop guide") (lit "Market Analysis") [lit "Menu"]
      openaiConfig
    = (trace (callAI (endpointAnswers (completion (JNum (lit "42"))))
                     (PromptString (detailsPrompt (lit "Coffee shop guide")
                                                  (lit "Market Analysis")
                                                  [lit "Menu"]))
                     openaiConfig None (Some applicationJson)
                     (schemaFor openaiConfig detailsSchema)),
       inl e).
Proof.
  apply (proj2 (json_services_on_non_string
                  JSON.parse (endpointAnswers (completion (JNum (lit "42"))))
                  (lit "Coffee shop guide") [] (lit "Market Analysis")
                  [lit "Menu"] openaiConfig _ (JNum (lit "42"))
                  ltac:(discriminate))).
  reflexivity.
Defined.

(** ** Code fences and data URIs, beyond the claims *)

Module TextRun.

Lemma trim_head (s : jsstring) :
  match trim s with c :: _ => isSpace c = false | [] => True end.
Proof.
  unfold trim. pose proof (trimStart_head s) as Hh.
  destruct (trimEnd_prefix (trimStart s)) as [b Hb].
  destruct (trimEnd (trimStart s)) as [|c t]; [exact I|].
  rewrite Hb in Hh. exact Hh.
Qed.

Lemma trim_last (s : jsstring) :
  match rev (trim s) with c :: _ => isSpace c = false | [] => True end.
Proof.
  unfold trim, trimEnd. rewrite rev_involutive. apply trimStart_head.
Qed.

(** A first group and a last group around a separator always match. *)
Lemma matchGroups_some (a d : jsstring) :
  a <> [] -> d <> [] ->
  noLineTerminator a = true -> noLineTerminator d = true ->
  matchGroups (a ++ separator ++ d) <> None.
Proof.
  intros Ha Hd Hna Hnd. induction a as [|c a IH]; [contradiction|].
  unfold noLineTerminator in Hna. cbn [forallb] in Hna.
  apply andb_true_iff in Hna as [Hc Hna]. apply negb_true_iff in Hc.
  change ((c :: a) ++ separator ++ d) with (c :: (a ++ separator ++ d)).
  cbn [matchGroups]. rewrite Hc.
  destruct a as [|c' a].
  - cbn [app]. destruct (matchGroups (separator ++ d)) as [[g1 g2]|];
      [discriminate|].
    fold separator. rewrite stripPrefix_app.
    destruct d as [|x d]; [contradiction|].
    unfold noLineTerminator in Hnd. rewrite Hnd. discriminate.
  - destruct (matchGroups ((c' :: a) ++ separator ++ d)) as [[g1 g2]|] eqn:E;
      [discriminate|].
    exfalso. apply IH; [discriminate|exact Hna|reflexivity].
Qed.

Lemma noLineTerminator_app (a b : jsstring) :
  noLineTerminator (a ++ b) = noLineTerminator a && noLineTerminator b.
Proof. apply forallb_app. Qed.

(** The second group of a match holds no separator followed by text:
    the first group is as long as it can be. *)
Lemma matchGroups_greedy (r g1 g2 x y : jsstring) :
  matchGroups r = Some (g1, g2) -> g2 = x ++ separator ++ y -> y = [].
Proof.
  revert g1 g2; induction r as [|c r IH]; intros g1 g2 H E; [discriminate|].
  cbn [matchGroups] in H.
  destruct (isLineTerminator c); [discriminate|].
  destruct (matchGroups r) as [[h1 h2]|] eqn:Hr.
  - inversion H; subst. eapply IH; eauto.
  - fold separator in H.
    destruct (stripPrefix separator r) as [d|] eqn:Hd; [|discriminate].
    apply stripPrefix_Some in Hd. subst r.
    destruct d as [|z d]; [discriminate|].
    destruct (forallb _ (z :: d)) eqn:Hn; [|discriminate].
    injection H as _ H2. rewrite <- H2 in E. clear H2.
    destruct y as [|y0 y]; [reflexivity|]. exfalso.
    change (noLineTerminator (z :: d) = true) in Hn.
    rewrite E in Hn, Hr.
    rewrite !noLineTerminator_app in Hn.
    apply andb_true_iff in Hn as [Hx Hn].
    apply andb_true_iff in Hn as [_ Hy].
    revert Hr. rewrite app_assoc.
    apply matchGroups_some.
    + intros Hnil. apply (f_equal (@List.length N)) in Hnil.
      rewrite length_app in Hnil. cbn in Hnil. lia.
    + discriminate.
    + rewrite noLineTerminator_app, Hx. reflexivity.
    + exact Hy.
Qed.

End TextRun.
Import TextRun.

(** X16. What [stripCodeFence] returns holds no run of three
    backquotes, and neither starts nor ends with white space. *)
Theorem stripCodeFence_result (s : jsstring) :
  includes fence (stripCodeFence s) = false
  /\ match stripCodeFence s with
     | c :: _ => isSpace c = false
     | [] => True
     end
  /\ match rev (stripCodeFence s) with
     | c :: _ => isSpace c = false
     | [] => True
     end.
Proof.
  split; [apply stripCodeFence_clean|]. unfold stripCodeFence.
  split; [apply trim_head|apply trim_last].
Qed.

(** X17. A response without three backquotes in a row is only trimmed:
    stripping the fences alters nothing inside it. *)
Theorem stripCodeFence_without_fence (s : jsstring) :
  includes fence s = false ->
  stripCodeFence s = trim s
  /\ exists before after, s = before ++ stripCodeFence s ++ after.
Proof.
  intros H. rewrite (stripCodeFence_absent s H).
  split; [reflexivity|apply trim_substring].
Qed.

Lemma stripCodeFence_without_fence_witness :
  stripCodeFence (lit " {} ") = trim (lit " {} ")
  /\ exists before after,
      lit " {} " = before ++ stripCodeFence (lit " {} ") ++ after.
Proof.
  apply (stripCodeFence_without_fence (lit " {} ")). reflexivity.
Defined.

(** X18. The pattern of the chart image matches exactly the strings
    [data:<m>;base64,<d>] with a non-empty [m] and a non-empty [d] that
    hold no line terminator; any other string is no image for
    [generateChapterContent]. *)
Theorem matchDataUri_matches (s : jsstring) :
  matchDataUri s <> None
  <-> exists m d,
        s = dataUri m d /\ m <> [] /\ d <> []
        /\ noLineTerminator m = true /\ noLineTerminator d = true.
Proof.
  unfold matchDataUri, dataUri. split.
  - destruct (stripPrefix (lit "data:") s) as [r|] eqn:Hr; [|congruence].
    apply stripPrefix_Some in Hr. subst s.
    destruct (matchGroups r) as [[m d]|] eqn:Hm; [|congruence].
    intros _. apply matchGroups_sound in Hm as (-> & H1 & H2 & H3 & H4).
    now exists m, d.
  - intros (m & d & -> & Hm & Hd & Hnm & Hnd).
    rewrite stripPrefix_app. now apply matchGroups_some.
Qed.

Lemma matchDataUri_matches_witness :
  matchDataUri (dataUri (lit "image/png") (lit "iVBORw0KGgo=")) <> None.
Proof.
  apply (proj2 (matchDataUri_matches
                  (dataUri (lit "image/png") (lit "iVBORw0KGgo=")))).
  exists (lit "image/png"), (lit "iVBORw0KGgo=").
  repeat split; try reflexivity; discriminate.
Defined.

(** X19. In a match the mime type is as long as it can be: the payload
    holds no [;base64,] followed by more text. *)
Theorem matchDataUri_greedy (s m d x y : jsstring) :
  matchDataUri s = Some (m, d) ->
  d = x ++ separator ++ y ->
  y = [].
Proof.
  unfold matchDataUri.
  destruct (stripPrefix (lit "data:") s) as [r|]; [|discriminate].
  apply matchGroups_greedy.
Qed.

Lemma matchDataUri_greedy_witness :
  matchDataUri (lit "data:a;base64,c;base64,")
  = Some (lit "a", lit "c;base64,")
  /\ @nil N = [].
Proof.
  split; [reflexivity|].
  apply (matchDataUri_greedy
           (lit "data:a;base64,c;base64,") (lit "a") (lit "c;base64,")
           (lit "c") []).
  - reflexivity.
  - reflexivity.
Defined.

(** X20. On the OpenAI path a chart image that matches the pattern
    reaches the endpoint as it was given: the user message is the image
    URL, equal to the data URI of the caller, followed by the prompt
    text. *)
Theorem generateChapterContent_sends_image
    (w : World) (topic chapterTitle : jsstring) (points : list jsstring)
    (tone : jsstring) (config : AIConfig) (image key base : jsstring) :
  provider config = openai ->
  apiKey config = Some key -> key <> [] ->
  baseUrl config = Some base -> base <> [] ->
  matchDataUri image <> None ->
  sentUserContent
    (trace (generateChapterContent w topic chapterTitle points tone config
                                   (Some image)))
  = [ContentArray
       [EntryImageUrl image;
        EntryText (contentPromptText topic chapterTitle points tone
                                     (Some image))]].
Proof.
  intros Hp Hk Hkey Hb Hbase Hmatch.
  destruct (matchDataUri image) as [[m d]|] eqn:Hm; [|congruence].
  destruct (matchDataUri_sound _ _ _ Hm) as (Himage & _ & _).
  unfold generateChapterContent.
  destruct image as [|c image]; [discriminate|]. rewrite Hm.
  rewrite sentUserContent_networkCalls.
  rewrite (callAI_openai_request_exact w _ config None None None key base
             Hp Hk Hkey Hb Hbase).
  rewrite Himage. reflexivity.
Qed.

Lemma generateChapterContent_sends_image_witness :
  sentUserContent
    (trace (generateChapterContent
              (chatReplies (lit "Sales rose.")) (lit "Coffee shop guide")
              (lit "Market Analysis") [lit "demand trends"]
              (lit "Professional") openaiConfig
              (Some (lit "data:image/png;base64,iVBORw0KGgo="))))
  = [ContentArray
       [EntryImageUrl (lit "data:image/png;base64,iVBORw0KGgo=");
        EntryText
          (contentPromptText
             (lit "Coffee shop guide") (lit "Market Analysis")
             [lit "demand trends"] (lit "Professional")
             (Some (lit "data:image/png;base64,iVBORw0KGgo=")))]].
Proof.
  apply (generateChapterContent_sends_image
           (chatReplies (lit "Sales rose.")) (lit "Coffee shop guide")
           (lit "Market Analysis") [lit "demand trends"] (lit "Professional")
           openaiConfig (lit "data:image/png;base64,iVBORw0KGgo=")
           (lit "sk-test") (lit "https://api.openai.com/v1/"));
    try reflexivity; discriminate.
Defined.

(** ** The wizard *)

Module WizardFacts.

Lemma join_app (sep : jsstring) (a b : list jsstring) :
  a <> [] -> b <> [] ->
  join sep (a ++ b) = join sep a ++ sep ++ join sep b.
Proof.
  intros Ha Hb. induction a as [|x a IH]; [contradiction|].
  destruct a as [|y a].
  - destruct b as [|z b]; [contradiction|]. reflexivity.
  - change ((x :: y :: a) ++ b) with (x :: ((y :: a) ++ b)).
    change (join sep (x :: (y :: a) ++ b))
      with (x ++ sep ++ join sep ((y :: a) ++ b)).
    rewrite IH by discriminate.
    change (join sep (x :: y :: a)) with (x ++ sep ++ join sep (y :: a)).
    now rewrite <- !app_assoc.
Qed.

Lemma includes_join (p sep x : jsstring) (xs : list jsstring) :
  In x xs -> includes p x = true -> includes p (join sep xs) = true.
Proof.
  intros Hin Hp. induction xs as [|y xs IH]; [destruct Hin|].
  destruct xs as [|z xs].
  - destruct Hin as [->|[]]. exact Hp.
  - change (join sep (y :: z :: xs)) with (y ++ sep ++ join sep (z :: xs)).
    destruct Hin as [->|Hin].
    + now apply includes_app_l.
    + apply includes_app_r, includes_app_r. now apply IH.
Qed.

Lemma includes_self (p : jsstring) : includes p p = true.
Proof. rewrite <- (app_nil_r p) at 2. apply includes_here. Qed.

Lemma dropIndexFrom_spec {A} (i index : nat) (xs : list A) :
  (i <= index)%nat ->
  Wizard.dropIndexFrom i index xs
  = firstn (index - i) xs ++ skipn (S (index - i)) xs.
Proof.
  revert i; induction xs as [|x xs IH]; intros i Hle.
  - now rewrite firstn_nil, skipn_nil.
  - cbn [Wizard.dropIndexFrom]. destruct (Nat.eqb_spec i index) as [->|Hne].
    + rewrite Nat.sub_diag. cbn [firstn skipn app].
      clear IH Hle. revert index.
      induction xs as [|y xs IHx]; intros index; [reflexivity|].
      cbn [Wizard.dropIndexFrom].
      destruct (Nat.eqb_spec (S index) index); [lia|].
      f_equal. 
      assert (G : forall (l : list A) j k, (k < j)%nat ->
                    Wizard.dropIndexFrom j k l = l).
      { clear. induction l as [|z l IHl]; intros j k Hjk; [reflexivity|].
        cbn [Wizard.dropIndexFrom].
        destruct (Nat.eqb_spec j k); [lia|]. f_equal. apply IHl. lia. }
      apply G. lia.
    + rewrite (IH (S i)) by lia.
      replace (index - i)%nat with (S (index - S i)) by lia.
      reflexivity.
Qed.

Lemma mapIndexFrom_length {A B} (i : nat) (f : nat -> A -> B) (xs : list A) :
  List.length (Wizard.mapIndexFrom i f xs) = List.length xs.
Proof.
  revert i; induction xs as [|x xs IH]; intros i; cbn; [reflexivity|].
  now rewrite IH.
Qed.

Lemma lit_inj (a b : string) : lit a = lit b -> a = b.
Proof.
  unfold lit. intros H.
  rewrite <- (string_of_list_ascii_of_string a),
          <- (string_of_list_ascii_of_string b).
  f_equal. revert H.
  generalize (list_ascii_of_string a) (list_ascii_of_string b).
  induction l as [|x l IH]; intros [|y l']; cbn; intros H;
    try discriminate; [reflexivity|].
  injection H as Hxy Hl. f_equal; [|now apply IH].
  rewrite <- (ascii_N_embedding x), <- (ascii_N_embedding y).
  now rewrite Hxy.
Qed.

Lemma to_uint_nonnil (n : N) : N.to_uint n <> Decimal.Nil.
Proof.
  destruct n as [|p]; [discriminate|]. apply DecimalPos.Unsigned.to_uint_nonnil.
Qed.

(** The decimal rendering tells numbers apart. *)
Lemma showN_inj (n m : N) : showN n = showN m -> n = m.
Proof.
  unfold showN. intros H. apply lit_inj in H.
  apply DecimalN.Unsigned.to_uint_inj.
  assert (E : Some (N.to_uint n) = Some (N.to_uint m)).
  { rewrite <- (NilZero.usu _ (to_uint_nonnil n)),
            <- (NilZero.usu _ (to_uint_nonnil m)).
    now rewrite H. }
  now injection E.
Qed.

Lemma indexToString_inj (i j : nat) :
  Wizard.indexToString i = Wizard.indexToString j -> i = j.
Proof.
  unfold Wizard.indexToString. intros H. apply showN_inj in H.
  now apply Nat2N.inj.
Qed.

End WizardFacts.
Import WizardFacts.

(** X21. The model name shown in the header is never longer than 15
    code units: a name of the custom provider that is longer is cut to
    its first 12 code units and three dots, a shorter one is shown as it
    is. *)
Theorem getModelDisplayName_fits (aiConfig : AIConfig) :
  (List.length (Wizard.getModelDisplayName aiConfig) <= 15)%nat
  /\ (provider aiConfig <> gemini ->
      (List.length (modelName aiConfig) <= 15)%nat ->
      Wizard.getModelDisplayName aiConfig = modelName aiConfig)
  /\ (provider aiConfig <> gemini ->
      (15 < List.length (modelName aiConfig))%nat ->
      Wizard.getModelDisplayName aiConfig
      = firstn 12 (modelName aiConfig) ++ lit "...").
Proof.
  unfold Wizard.getModelDisplayName. split; [|split].
  - destruct (streq (provider aiConfig) gemini).
    + destruct (includes _ _);
        [change (List.length (lit "Gemini Pro")) with 10%nat
        |change (List.length (lit "Gemini Flash")) with 12%nat]; lia.
    + destruct (Nat.ltb_spec 15 (List.length (modelName aiConfig))).
      * rewrite length_app, length_firstn.
        change (List.length (lit "...")) with 3%nat. lia.
      * lia.
  - intros Hp Hl. rewrite (streq_neq _ _ Hp).
    destruct (Nat.ltb_spec 15 (List.length (modelName aiConfig)));
      [lia|reflexivity].
  - intros Hp Hl. rewrite (streq_neq _ _ Hp).
    destruct (Nat.ltb_spec 15 (List.length (modelName aiConfig)));
      [reflexivity|lia].
Qed.

Lemma getModelDisplayName_fits_witness :
  Wizard.getModelDisplayName customConfig = lit "my-own-large..."
  /\ Wizard.getModelDisplayName openaiConfig = lit "gpt-4o".
Proof.
  destruct (getModelDisplayName_fits customConfig) as (_ & _ & Hlong).
  destruct (getModelDisplayName_fits openaiConfig) as (_ & Hshort & _).
  split.
  - rewrite Hlong; [reflexivity|discriminate|cbn; lia].
  - rewrite Hshort; [reflexivity|discriminate|cbn; lia].
Defined.

(** X22. The assembled document of two non-empty runs of chapters is
    the document of the first, a blank line, and the document of the
    second; the document of no chapter is empty. *)
Theorem assembleFinal_app (a b : list Wizard.ChapterDetail) :
  Wizard.assembleFinal [] = []
  /\ (a <> [] -> b <> [] ->
      Wizard.assembleFinal (a ++ b)
      = Wizard.assembleFinal a ++ [10; 10] ++ Wizard.assembleFinal b).
Proof.
  split; [reflexivity|]. intros Ha Hb. unfold Wizard.assembleFinal.
  rewrite map_app. apply (join_app [10; 10]).
  - destruct a; [contradiction|discriminate].
  - destruct b; [contradiction|discriminate].
Qed.

Lemma assembleFinal_app_witness :
  Wizard.assembleFinal [written (lit "One") (lit "First."); planned (lit "Two") []]
  = Wizard.assembleFinal [written (lit "One") (lit "First.")]
    ++ [10; 10] ++ Wizard.assembleFinal [planned (lit "Two") []].
Proof.
  apply (proj2 (assembleFinal_app [written (lit "One") (lit "First.")]
                                  [planned (lit "Two") []]));
    discriminate.
Defined.

(** X23. Every chapter has its section in the assembled document: its
    title as a heading, a blank line, and then its content, or the
    placeholder when it has no content or an empty one. *)
Theorem assembleFinal_sections
    (data : list Wizard.ChapterDetail) (c : Wizard.ChapterDetail) :
  In c data ->
  (forall generated,
      Wizard.content c = Some generated -> generated <> [] ->
      includes (lit "# " ++ Wizard.title c ++ [10; 10] ++ generated)
               (Wizard.assembleFinal data) = true)
  /\ (Wizard.content c = None \/ Wizard.content c = Some [] ->
      includes (lit "# " ++ Wizard.title c ++ [10; 10]
                ++ lit "(No content generated)")
               (Wizard.assembleFinal data) = true).
Proof.
  intros Hin.
  assert (Hsec : includes (Wizard.chapterSection c)
                          (Wizard.assembleFinal data) = true).
  { unfold Wizard.assembleFinal.
    apply (includes_join _ _ (Wizard.chapterSection c)).
    - now apply in_map.
    - apply includes_self. }
  split.
  - intros generated Hc Hg. unfold Wizard.chapterSection in Hsec.
    rewrite Hc in Hsec. destruct generated; [contradiction|]. exact Hsec.
  - intros [Hc|Hc]; unfold Wizard.chapterSection in Hsec; rewrite Hc in Hsec;
      exact Hsec.
Qed.

Lemma assembleFinal_sections_witness :
  includes (lit "# Two" ++ [10; 10] ++ lit "(No content generated)")
           (Wizard.assembleFinal
              [written (lit "One") (lit "First."); planned (lit "Two") []])
  = true.
Proof.
  apply (proj2 (assembleFinal_sections
                  [written (lit "One") (lit "First."); planned (lit "Two") []]
                  (planned (lit "Two") [])
                  ltac:(right; left; reflexivity))).
  left. reflexivity.
Defined.

(** X24. The context handed to [generateChapterDetails] for the chapter
    at [index] is the list of titles without the one at that position,
    the others in their order; an index past the end leaves the list as
    it is. *)
Theorem contextFor_other_titles (index : nat) (chapters : list jsstring) :
  Wizard.contextFor index chapters
  = firstn index chapters ++ skipn (S index) chapters
  /\ ((index < List.length chapters)%nat ->
      S (List.length (Wizard.contextFor index chapters))
      = List.length chapters)
  /\ ((List.length chapters <= index)%nat ->
      Wizard.contextFor index chapters = chapters).
Proof.
  assert (E : Wizard.contextFor index chapters
              = firstn index chapters ++ skipn (S index) chapters).
  { unfold Wizard.contextFor. rewrite dropIndexFrom_spec by lia.
    now rewrite Nat.sub_0_r. }
  rewrite E. split; [reflexivity|]. split.
  - intros Hlt. rewrite length_app, length_firstn, length_skipn. lia.
  - intros Hle. rewrite firstn_all2 by lia. rewrite skipn_all2 by lia.
    apply app_nil_r.
Qed.

Lemma contextFor_other_titles_witness :
  S (List.length (Wizard.contextFor 1 [lit "One"; lit "Two"; lit "Three"]))
  = 3%nat.
Proof.
  apply (proj1 (proj2 (contextFor_other_titles
                         1 [lit "One"; lit "Two"; lit "Three"]))).
  cbn. lia.
Defined.

(** X25. The plan starts with one entry per chapter title, in order,
    each without points and with an identifier of its own; so the way to
    the next step is closed at the start, unless there is no chapter at
    all, when it is open. *)
Theorem initialDetails_plan (chapters : list jsstring) :
  map Wizard.title (Wizard.initialDetails chapters) = chapters
  /\ Forall (fun d => Wizard.points d = []) (Wizard.initialDetails chapters)
  /\ NoDup (map Wizard.id (Wizard.initialDetails chapters))
  /\ (Wizard.isAllPlanned (Wizard.initialDetails chapters) = true
      <-> chapters = []).
Proof.
  unfold Wizard.initialDetails.
  assert (G : forall i,
    map Wizard.title
        (Wizard.mapIndexFrom i
           (fun i title =>
              Wizard.mkChapterDetail (Wizard.indexToString i) title []
                                     None None (Some false)) chapters)
    = chapters
    /\ Forall (fun d => Wizard.points d = [])
         (Wizard.mapIndexFrom i
            (fun i title =>
               Wizard.mkChapterDetail (Wizard.indexToString i) title []
                                      None None (Some false)) chapters)
    /\ (forall x,
          In x (map Wizard.id
                  (Wizard.mapIndexFrom i
                     (fun i title =>
                        Wizard.mkChapterDetail (Wizard.indexToString i) title
                                               [] None None (Some false))
                     chapters)) ->
          exists j, (i <= j)%nat /\ x = Wizard.indexToString j)
    /\ NoDup (map Wizard.id
                (Wizard.mapIndexFrom i
                   (fun i title =>
                      Wizard.mkChapterDetail (Wizard.indexToString i) title []
                                             None None (Some false))
                   chapters))).
  { induction chapters as [|c cs IH]; intros i.
    - repeat split; try constructor. intros x [].
    - destruct (IH (S i)) as (Ht & Hp & Hin & Hnd).
      cbn [Wizard.mapIndexFrom map Wizard.title Wizard.id]. repeat split.
      + now rewrite Ht.
      + constructor; [reflexivity|exact Hp].
      + intros x [<-|Hx]; [exists i; split; [lia|reflexivity]|].
        destruct (Hin x Hx) as (j & Hj & ->). exists j. split; [lia|reflexivity].
      + constructor; [|exact Hnd].
        intros Hx. destruct (Hin _ Hx) as (j & Hj & E).
        apply indexToString_inj in E. lia. }
  destruct (G 0%nat) as (Ht & Hp & _ & Hnd).
  repeat split; try assumption.
  - destruct chapters as [|c cs]; [reflexivity|]. discriminate.
  - intros ->. reflexivity.
Qed.

Lemma initialDetails_plan_witness :
  Wizard.isAllPlanned (Wizard.initialDetails []) = true.
Proof.
  apply (proj2 (proj2 (proj2 (proj2 (initialDetails_plan []))))).
  reflexivity.
Defined.

Module PlanFacts.

Lemma updateAt_Some (index : nat) (f : Wizard.ChapterDetail -> Wizard.ChapterDetail)
    (details details' : list Wizard.ChapterDetail) :
  Wizard.updateAt index f details = Some details' ->
  exists before d after,
    details = before ++ d :: after
    /\ details' = before ++ f d :: after
    /\ List.length before = index.
Proof.
  revert index details'; induction details as [|x xs IH];
    intros [|k] details' H; cbn [Wizard.updateAt] in H; try discriminate.
  - injection H as <-. now exists [], x, xs.
  - destruct (Wizard.updateAt k f xs) as [r|] eqn:E; [|discriminate].
    injection H as <-.
    destruct (IH _ _ E) as (b & d & a & -> & -> & Hl).
    exists (x :: b), d, a. cbn. auto.
Qed.

Lemma updateAt_None (index : nat) (f : Wizard.ChapterDetail -> Wizard.ChapterDetail)
    (details : list Wizard.ChapterDetail) :
  Wizard.updateAt index f details = None
  <-> (List.length details <= index)%nat.
Proof.
  revert index; induction details as [|x xs IH]; intros [|k];
    cbn [Wizard.updateAt List.length].
  - split; [lia|reflexivity].
  - split; [lia|reflexivity].
  - split; [discriminate|lia].
  - specialize (IH k). destruct (Wizard.updateAt k f xs).
    + split; [discriminate|]. intros H. assert (Hk : (List.length xs <= k)%nat) by lia.
      apply IH in Hk. discriminate.
    + split; [|reflexivity]. intros _. assert (Hk : (List.length xs <= k)%nat)
        by now apply IH.
      lia.
Qed.

Lemma isAllPlanned_app (a b : list Wizard.ChapterDetail) :
  Wizard.isAllPlanned (a ++ b)
  = Wizard.isAllPlanned a && Wizard.isAllPlanned b.
Proof. apply forallb_app. Qed.

End PlanFacts.
Import PlanFacts.

(** X26. Adding a point to the chapter at [chapterIndex] appends [New
    point] to its points and touches no other chapter; when every other
    chapter already has a point, the way to the next step opens.  For an
    index past the end the handler fails. *)
Theorem addPoint_opens_next_step
    (chapterIndex : nat) (details : list Wizard.ChapterDetail) :
  ((List.length details <= chapterIndex)%nat ->
   Wizard.addPoint chapterIndex details = None)
  /\ forall details',
      Wizard.addPoint chapterIndex details = Some details' ->
      exists before d after,
        details = before ++ d :: after
        /\ List.length before = chapterIndex
        /\ details'
           = before
             ++ Wizard.withPoints d (Wizard.points d ++ [lit "New point"])
             :: after
        /\ (Wizard.isAllPlanned before = true ->
            Wizard.isAllPlanned after = true ->
            Wizard.isAllPlanned details' = true).
Proof.
  split.
  - intros H. now apply updateAt_None.
  - intros details' H. apply updateAt_Some in H as (b & d & a & -> & -> & Hl).
    exists b, d, a. repeat split; try assumption.
    intros Hb Ha. rewrite isAllPlanned_app, Hb.
    cbn [Wizard.isAllPlanned forallb Wizard.withPoints Wizard.points andb].
    fold (Wizard.isAllPlanned a). rewrite Ha, length_app. cbn.
    rewrite Nat.add_comm. reflexivity.
Qed.

Lemma addPoint_opens_next_step_witness :
  Wizard.isAllPlanned
    [planned (lit "One") [lit "a"];
     Wizard.withPoints (planned (lit "Two") []) ([] ++ [lit "New point"])]
  = true.
Proof.
  destruct (proj2 (addPoint_opens_next_step
                     1 [planned (lit "One") [lit "a"]; planned (lit "Two") []])
                  [planned (lit "One") [lit "a"];
                   Wizard.withPoints (planned (lit "Two") [])
                                     ([] ++ [lit "New point"])]
                  eq_refl)
    as (before & d & after & Hsplit & Hlen & Hnew & Hopen).
  destruct before as [|b0 [|b1 before]]; try discriminate.
  injection Hsplit as <- <- <-.
  apply Hopen; reflexivity.
Defined.

(** X27. Removing the point at [pointIndex] of the chapter at
    [chapterIndex] leaves the other points of that chapter in their
    order and touches no other chapter; removing the only point of a
    chapter closes the way to the next step. *)
Theorem removePoint_effect
    (chapterIndex pointIndex : nat)
    (details details' : list Wizard.ChapterDetail) :
  Wizard.removePoint chapterIndex pointIndex details = Some details' ->
  exists before d after,
    details = before ++ d :: after
    /\ List.length before = chapterIndex
    /\ details'
       = before
         ++ Wizard.withPoints d (firstn pointIndex (Wizard.points d)
                                 ++ skipn (S pointIndex) (Wizard.points d))
         :: after
    /\ (forall p, Wizard.points d = [p] -> pointIndex = 0%nat ->
                  Wizard.isAllPlanned details' = false).
Proof.
  intros H. apply updateAt_Some in H as (b & d & a & -> & -> & Hl).
  exists b, d, a. rewrite dropIndexFrom_spec by lia. rewrite Nat.sub_0_r.
  repeat split; try assumption.
  intros p Hp ->. rewrite isAllPlanned_app, Hp.
  cbn [Wizard.isAllPlanned forallb Wizard.withPoints Wizard.points firstn
       skipn app List.length Nat.ltb Nat.leb andb].
  apply andb_false_r.
Qed.

Lemma removePoint_effect_witness :
  Wizard.isAllPlanned
    [Wizard.withPoints (planned (lit "One") [lit "a"]) []] = false.
Proof.
  destruct (removePoint_effect
              0 0 [planned (lit "One") [lit "a"]]
              [Wizard.withPoints (planned (lit "One") [lit "a"]) []] eq_refl)
    as (before & d & after & Hsplit & Hlen & Hnew & Hclosed).
  destruct before as [|b0 before]; try discriminate.
  injection Hsplit as <- <-.
  apply (Hclosed (lit "a")); reflexivity.
Defined.

(** X28. After a preset is applied to a configuration of the custom
    provider, the gateway posts to the base URL of the preset followed
    by [/chat/completions], with the model of the preset and the key the
    configuration had; and when the configuration had no key the gateway
    fails at once, for the preset brings none. *)
Theorem applyPreset_endpoint
    (w : World) (prompt : Prompt) (localConfig : AIConfig)
    (preset : Wizard.Preset)
    (systemInstruction mime : option jsstring) (schema : option Schema) :
  In preset Wizard.PRESETS ->
  provider localConfig = openai ->
  (forall key,
      apiKey localConfig = Some key -> key <> [] ->
      exists init,
        networkCalls
          (trace (callAI w prompt (Wizard.applyPreset localConfig preset)
                         systemInstruction mime schema))
        = [HttpFetch (Wizard.presetBaseUrl preset ++ chatCompletionsPath) init]
        /\ model (body init) = Wizard.presetModel preset
        /\ In (lit "Authorization", lit "Bearer " ++ key) (headers init))
  /\ (truthyStr (apiKey localConfig) = false ->
      callAI w prompt (Wizard.applyPreset localConfig preset)
             systemInstruction mime schema
      = ([], inl (mkError
                    (lit "Missing API Key or Base URL for custom provider")))).
Proof.
  intros Hin Hp. split.
  - intros key Hk Hkey.
    assert (Hurl :
      (if negb (includes chatCompletionsPath (Wizard.presetBaseUrl preset))
       then removeTrailingSlash (Wizard.presetBaseUrl preset)
            ++ chatCompletionsPath
       else Wizard.presetBaseUrl preset)
      = Wizard.presetBaseUrl preset ++ chatCompletionsPath).
    { cbn [Wizard.PRESETS In] in Hin.
      destruct Hin as [<-|[<-|[<-|[<-|[<-|[]]]]]]; vm_compute; reflexivity. }
    assert (Hbase : Wizard.presetBaseUrl preset <> []).
    { cbn [Wizard.PRESETS In] in Hin.
      destruct Hin as [<-|[<-|[<-|[<-|[<-|[]]]]]]; discriminate. }
    assert (Hk' : apiKey (Wizard.applyPreset localConfig preset) = Some key).
    { unfold Wizard.applyPreset. cbn [apiKey]. rewrite Hk.
      destruct key; [contradiction|reflexivity]. }
    pose proof (callAI_openai_request_exact w prompt
                  (Wizard.applyPreset localConfig preset)
                  systemInstruction mime schema key
                  (Wizard.presetBaseUrl preset) Hp Hk' Hkey eq_refl Hbase)
      as Hreq.
    match type of Hreq with
    | _ = [HttpFetch ?u _] =>
        replace u with (Wizard.presetBaseUrl preset ++ chatCompletionsPath)
          in Hreq by (symmetry; exact Hurl)
    end.
    eexists. split; [exact Hreq|].
    split; [reflexivity|]. right. left. reflexivity.
  - intros Hno. apply callAI_missing_configuration; [exact Hp|].
    left. unfold Wizard.applyPreset. cbn [apiKey].
    destruct (apiKey localConfig) as [[|c k]|]; try reflexivity. discriminate.
Qed.

Lemma applyPreset_endpoint_witness :
  exists init,
    networkCalls
      (trace (callAI (chatReplies [])
                     (PromptString (lit "Hi"))
                     (Wizard.applyPreset
                        openaiConfig
                        (Wizard.mkPreset
                           (lit "DeepSeek") (lit "https://api.deepseek.com")
                           (lit "deepseek-chat")
                           (lit "Coding & reasoning specialist")))
                     None None None))
    = [HttpFetch (lit "https://api.deepseek.com/chat/completions") init]
    /\ model (body init) = lit "deepseek-chat"
    /\ In (lit "Authorization", lit "Bearer sk-test") (headers init).
Proof.
  apply (proj1 (applyPreset_endpoint
                  (chatReplies []) (PromptString (lit "Hi")) openaiConfig
                  (Wizard.mkPreset
                     (lit "DeepSeek") (lit "https://api.deepseek.com")
                     (lit "deepseek-chat")
                     (lit "Coding & reasoning specialist"))
                  None None None
                  ltac:(right; left; reflexivity) eq_refl)
               (lit "sk-test") eq_refl ltac:(discriminate)).
Defined.



(** X30. Testing the connection performs the network calls of one
    gateway call; it ends in the status of success exactly when that
    call succeeds, and otherwise in the status of error with a message
    that is never empty, the message of the error when it has one. *)
Theorem handleTestConnection_status (w : World) (localConfig : AIConfig) :
  networkCalls (fst (Wizard.handleTestConnection w localConfig))
  = networkCalls
      (trace (callAI w (PromptString (lit "Hi")) localConfig None None None))
  /\ (forall v,
        outcome (callAI w (PromptString (lit "Hi")) localConfig None None None)
        = inr v ->
        snd (Wizard.handleTestConnection w localConfig)
        = (Wizard.StatusSuccess, []))
  /\ (forall e,
        outcome (callAI w (PromptString (lit "Hi")) localConfig None None None)
        = inl e ->
        exists errorMessage,
          snd (Wizard.handleTestConnection w localConfig)
          = (Wizard.StatusError, errorMessage)
          /\ errorMessage <> []
          /\ (message e <> [] -> errorMessage = message e)).
Proof.
  unfold Wizard.handleTestConnection, validateConnection.
  destruct (callAI w (PromptString (lit "Hi")) localConfig None None None)
    as [t [e|v]]; run_monad; cbn [fst snd].
  - split; [|split].
    + rewrite networkCalls_app. cbn. now rewrite app_nil_r.
    + discriminate.
    + intros e' H. injection H as <-. eexists. split; [reflexivity|].
      destruct (message e); split; try discriminate;
        intros; try contradiction; reflexivity.
  - split; [|split].
    + now rewrite app_nil_r.
    + reflexivity.
    + discriminate.
Qed.

Lemma handleTestConnection_status_witness :
  snd (Wizard.handleTestConnection (chatReplies (lit "Hello")) openaiConfig)
  = (Wizard.StatusSuccess, [])
  /\ exists errorMessage,
      snd (Wizard.handleTestConnection
             (chatReplies (lit "Hello"))
             (mkAIConfig openai (lit "gpt-4o") (Some [])
                         (Some (lit "https://api.openai.com/v1"))))
      = (Wizard.StatusError, errorMessage)
      /\ errorMessage
         = lit "Missing API Key or Base URL for custom provider".
Proof.
  split.
  - apply (proj1 (proj2 (handleTestConnection_status
                           (chatReplies (lit "Hello")) openaiConfig))
                 (JStr (lit "Hello"))).
    reflexivity.
  - destruct (proj2 (proj2 (handleTestConnection_status
                              (chatReplies (lit "Hello"))
                              (mkAIConfig openai (lit "gpt-4o") (Some [])
                                          (Some (lit "https://api.openai.com/v1")))))
                    (mkError
                       (lit "Missing API Key or Base URL for custom provider"))
                    eq_refl)
      as (msg & Hsnd & _ & Hmsg).
    exists msg. split; [exact Hsnd|]. apply Hmsg. discriminate.
Defined.
